(** * GitOps MCP server: the query-and-classification layer

    A shallow embedding of the tool functions of [gitops_mcp/tools]
    ([flux.py], [cluster.py], [apps.py], [policy.py]): each tool reads
    objects from the cluster, classifies them and renders a markdown
    report.  The cluster is an explicit argument (the modules' global
    [dyn_client] / [core_v1]); a Python exception is a [Raise] result. *)

From Stdlib Require Import String Ascii List ZArith Lia Bool DecimalString.
From Stdlib Require Import Permutation Sorted.
Import ListNotations.
Open Scope string_scope.

(** * The embedding *)

(** ** Exceptions and the result monad *)

Inductive exn : Type :=
| KeyError (key : string)
| ValueError (msg : string)
| IndexError
| AttributeError (msg : string)
| TypeError (msg : string)
| ApiException (msg : string).

Inductive result (A : Type) : Type :=
| Ok (a : A)
| Raise (e : exn).
Arguments Ok {A} a.
Arguments Raise {A} e.

Definition bind {A B : Type} (m : result A) (f : A -> result B) : result B :=
  match m with
  | Ok a => f a
  | Raise e => Raise e
  end.

Notation "x <- m ;; k" := (bind m (fun x => k))
  (at level 61, m at next level, right associativity).

(** A [for] loop whose body may raise: the state reached so far is lost
    with the exception, as when nothing catches it inside the loop. *)
Fixpoint for_each {A S : Type} (body : S -> A -> result S) (items : list A)
  (st : S) : result S :=
  match items with
  | [] => Ok st
  | x :: rest => st' <- body st x ;; for_each body rest st'
  end.

(** [any(f(c) for c in l)]: stops at the first true element, raises as
    soon as an element raises. *)
Fixpoint py_any {A : Type} (f : A -> result bool) (l : list A) : result bool :=
  match l with
  | [] => Ok false
  | x :: rest => b <- f x ;; if b then Ok true else py_any f rest
  end.

(** ** Python string operations (on ASCII text; a byte above 127 has no case) *)

Module Py.

Definition is_lower (c : ascii) : bool :=
  let n := nat_of_ascii c in (97 <=? n)%nat && (n <=? 122)%nat.

Definition is_upper (c : ascii) : bool :=
  let n := nat_of_ascii c in (65 <=? n)%nat && (n <=? 90)%nat.

Definition is_digit (c : ascii) : bool :=
  let n := nat_of_ascii c in (48 <=? n)%nat && (n <=? 57)%nat.

Definition to_upper (c : ascii) : ascii :=
  if is_lower c then ascii_of_nat (nat_of_ascii c - 32) else c.

Definition to_lower (c : ascii) : ascii :=
  if is_upper c then ascii_of_nat (nat_of_ascii c + 32) else c.

(** [s.lower()] *)
Fixpoint lower (s : string) : string :=
  match s with
  | EmptyString => EmptyString
  | String c s' => String (to_lower c) (lower s')
  end.

(** [s.title()]: a cased character is upper-cased when the character
    before it is not cased, and lower-cased when it is. *)
Fixpoint title_from (prev_cased : bool) (s : string) : string :=
  match s with
  | EmptyString => EmptyString
  | String c s' =>
      if is_lower c then
        String (if prev_cased then c else to_upper c) (title_from true s')
      else if is_upper c then
        String (if prev_cased then to_lower c else c) (title_from true s')
      else String c (title_from false s')
  end.

Definition title (s : string) : string := title_from false s.

(** [s.replace(c, empty)] for a one-character [c] *)
Fixpoint remove_char (c : ascii) (s : string) : string :=
  match s with
  | EmptyString => EmptyString
  | String d s' =>
      if Ascii.eqb d c then remove_char c s' else String d (remove_char c s')
  end.

(** [sub in s] *)
Fixpoint contains (sub s : string) : bool :=
  prefix sub s ||
  match s with
  | EmptyString => false
  | String _ s' => contains sub s'
  end.

(** [s[:n]] for a literal [n >= 0] *)
Fixpoint slice_to (n : nat) (s : string) : string :=
  match n, s with
  | S n', String c s' => String c (slice_to n' s')
  | _, _ => EmptyString
  end.

(** Truth value of a string, and of an optional string ([None] is false). *)
Definition truthy (s : string) : bool := negb (s =? EmptyString).

Definition truthy_opt (o : option string) : bool :=
  match o with
  | Some s => truthy s
  | None => false
  end.

(** [str(x)] as an f-string prints it *)
Definition str_of_bool (b : bool) : string := if b then "True" else "False".

Definition str_of_Z (z : Z) : string := NilZero.string_of_int (Z.to_int z).

Definition str_of_nat (n : nat) : string := str_of_Z (Z.of_nat n).

Definition str_of_opt (o : option string) : string :=
  match o with
  | Some s => s
  | None => "None"
  end.

(** [o == s] and [o != s] for an attribute [o] that may be [None] *)
Definition opt_eqb (o : option string) (s : string) : bool :=
  match o with
  | Some t => t =? s
  | None => false
  end.

(** [d.get(key, default)] on a field that may be absent *)
Definition get {A : Type} (field : option A) (default : A) : A :=
  match field with
  | Some a => a
  | None => default
  end.

(** [d[key]] on a plain mapping: [KeyError] when the key is absent *)
Definition getitem {A : Type} (key : string) (field : option A) : result A :=
  match field with
  | Some a => Ok a
  | None => Raise (KeyError key)
  end.

(** White space as [int] skips it around the number: tab, line feed,
    vertical tab, form feed, return and space. *)
Definition is_space (c : ascii) : bool :=
  let n := nat_of_ascii c in
  ((9 <=? n)%nat && (n <=? 13)%nat) || (n =? 32)%nat.

Fixpoint lstrip (s : string) : string :=
  match s with
  | String c s' => if is_space c then lstrip s' else s
  | EmptyString => EmptyString
  end.

Fixpoint rstrip (s : string) : string :=
  match s with
  | EmptyString => EmptyString
  | String c s' =>
      match rstrip s' with
      | EmptyString => if is_space c then EmptyString else String c EmptyString
      | t => String c t
      end
  end.

Definition strip (s : string) : string := rstrip (lstrip s).

Definition digit_val (c : ascii) : Z := Z.of_nat (nat_of_ascii c - 48).

Fixpoint parse_digits (s : string) (acc : Z) (after_digit : bool) (count : nat)
  : option (Z * nat) :=
  match s with
  | EmptyString => if after_digit then Some (acc, count) else None
  | String c s' =>
      if is_digit c then parse_digits s' (10 * acc + digit_val c) true (S count)
      else if Ascii.eqb c "_" then
        if after_digit then parse_digits s' acc false count else None
      else None
  end.

Definition max_str_digits : nat := 4300.

(** [repr(s)]: single quotes unless the string has a single quote and no
    double quote; the quote and the backslash are escaped, tab, newline and
    return are written [\t], [\n], [\r], another control byte as [\xNN];
    a byte above 127 is taken as part of a printable character. *)
Definition hex_digit (n : nat) : ascii :=
  if (n <? 10)%nat then ascii_of_nat (48 + n) else ascii_of_nat (87 + n).

Definition has_char (c : ascii) (s : string) : bool :=
  contains (String c EmptyString) s.

Definition repr_char (quote c : ascii) : string :=
  let n := nat_of_ascii c in
  if Ascii.eqb c quote || Ascii.eqb c "\" then String "\" (String c EmptyString)
  else if (n =? 9)%nat then "\t"
  else if (n =? 10)%nat then "\n"
  else if (n =? 13)%nat then "\r"
  else if (n <? 32)%nat || (n =? 127)%nat then
    "\x" ++ String (hex_digit (n / 16)) (String (hex_digit (n mod 16)) EmptyString)
  else String c EmptyString.

Fixpoint repr_body (quote : ascii) (s : string) : string :=
  match s with
  | EmptyString => EmptyString
  | String c s' => repr_char quote c ++ repr_body quote s'
  end.

Definition repr (s : string) : string :=
  let dquote : ascii := ascii_of_nat 34 in
  let quote : ascii :=
    if has_char "'" s && negb (has_char dquote s) then dquote else "'"%char in
  String quote (repr_body quote s ++ String quote EmptyString).

(** [int(s)]: surrounding white space, an optional sign, decimal digits
    with single underscores between them; more than 4300 digits are
    refused (the interpreter's default limit). *)
Definition int (s : string) : result Z :=
  let bad := Raise (ValueError
    ("invalid literal for int() with base 10: " ++ repr s)) in
  let body sign t :=
    match parse_digits t 0 false 0 with
    | Some (z, count) =>
        if (max_str_digits <? count)%nat then
          Raise (ValueError
            ("Exceeds the limit (4300 digits) for integer string conversion: "
             ++ "value has " ++ str_of_nat count
             ++ " digits; use sys.set_int_max_str_digits() to increase the limit"))
        else Ok (sign * z)%Z
    | None => bad
    end in
  match strip s with
  | String "-" t => body (-1)%Z t
  | String "+" t => body 1%Z t
  | t => body 1%Z t
  end.

(** [str(e)] *)
Definition str_of_exn (e : exn) : string :=
  match e with
  | KeyError k => repr k
  | ValueError m => m
  | IndexError => "list index out of range"
  | AttributeError m => m
  | TypeError m => m
  | ApiException m => m
  end.

End Py.


(** Line feed, and [sep.join(rows)] *)
Definition nl : string := String (ascii_of_nat 10) EmptyString.

Definition join (sep : string) (rows : list string) : string :=
  String.concat sep rows.

Definition is_empty {A : Type} (l : list A) : bool :=
  match l with
  | [] => true
  | _ :: _ => false
  end.

(** ** The objects the tools read

    A field read with [.get(key, default)], or that the server may leave
    out, is an [option]; the fields are those the tools read, at the types
    of the Kubernetes schemas of the kinds queried. *)

Record Condition : Type := {
  c_type : option string;
  c_status : option string;
  c_reason : option string;
  c_message : option string;
  c_lastTransitionTime : option string
}.

Record ObjectMeta : Type := {
  m_name : string;
  m_namespace : option string;
  m_labels : option (list (string * string))
}.

(** [spec.sourceRef], [status.nodeRef], an entry of a policy report's
    [resources]: a reference by kind and name. *)
Record ObjectRef : Type := {
  ref_kind : option string;
  ref_name : option string
}.

Record GitRef : Type := { branch : option string }.

Record ChartSpec : Type := { chart_name : option string }.

Record ChartTemplate : Type := { chart_spec : option ChartSpec }.

(** An entry of a Gatekeeper constraint's [status.violations] *)
Record Violation : Type := {
  v_kind : option string;
  v_name : option string;
  v_namespace : option string;
  v_message : option string
}.

Record Spec : Type := {
  suspend : option bool;
  sourceRef : option ObjectRef;
  path : option string;
  interval : option string;
  url : option string;
  ref : option GitRef;
  chart : option ChartTemplate;
  enforcementAction : option string
}.

Record Status : Type := {
  conditions : option (list Condition);
  phase : option string;
  infrastructureReady : option bool;
  controlPlaneReady : option bool;
  nodeRef : option ObjectRef;
  totalViolations : option Z;
  violations : option (list Violation)
}.

(** An entry of a policy report's [results] *)
Record ReportResult : Type := {
  rr_result : option string;
  rr_policy : option string;
  rr_resources : option (list ObjectRef);
  rr_message : option string
}.

Record Resource : Type := {
  metadata : ObjectMeta;
  spec : option Spec;
  status : option Status;
  results : option (list ReportResult)
}.

(** The empty mapping [{}] at each of these types *)
Definition no_spec : Spec :=
  {| suspend := None; sourceRef := None; path := None; interval := None;
     url := None; ref := None; chart := None; enforcementAction := None |}.

Definition no_status : Status :=
  {| conditions := None; phase := None; infrastructureReady := None;
     controlPlaneReady := None; nodeRef := None; totalViolations := None;
     violations := None |}.

Definition no_ref : ObjectRef := {| ref_kind := None; ref_name := None |}.

(** A core [Event] as the typed client returns it; its two time stamps are
    [datetime] objects, kept as the instant they denote (in microseconds),
    or [None]. *)
Record Event : Type := {
  last_timestamp : option Z;
  event_time : option Z;
  involved_kind : option string;
  involved_name : option string;
  ev_reason : option string;
  ev_message : option string;
  ev_type : option string
}.

(** ** The cluster

    What the API server answers: [dyn_list api_version kind namespace] is
    [dyn_client.resources.get(api_version, kind)] followed by
    [.get(namespace=...).items] ([None]: all namespaces), [dyn_get] the same
    with a name.  A missing API or a refused request is a [Raise]. *)
Record Cluster : Type := {
  dyn_list : string -> string -> option string -> result (list Resource);
  dyn_get : string -> string -> string -> string -> result Resource;
  list_namespaced_event : string -> result (list Event);
  read_namespaced_pod_log :
    string -> string -> option string -> Z -> result string
}.

(** [api.get(namespace=namespace).items if namespace else api.get().items] *)
Definition list_items (k8s : Cluster) (api_version kind : string)
  (namespace : option string) : result (list Resource) :=
  dyn_list k8s api_version kind
    (if Py.truthy_opt namespace then namespace else None).

(** [rows.append(row)], or [continue] when the body yields no row *)
Definition append_row {A : Type} (row : A -> result (option string))
  (rows : list string) (x : A) : result (list string) :=
  r <- row x ;;
  Ok (match r with
      | Some line => (rows ++ [line])%list
      | None => rows
      end).

(** ** flux.py *)

Definition conditions_of (k : Resource) : list Condition :=
  Py.get (conditions (Py.get (status k) no_status)) [].

(** [c["type"] == "Ready" and c["status"] == "True"]: a condition is a
    field object of the dynamic client, whose subscript gives [None] for an
    absent key. *)
Definition ready_true (c : Condition) : result bool :=
  Ok (Py.opt_eqb (c_type c) "Ready" && Py.opt_eqb (c_status c) "True").

(** The status of a Kustomization or HelmRelease ([list_kustomizations] and
    [get_helmreleases] compute it with the same statements). *)
Definition derived_status (k : Resource) : result string :=
  let conds := conditions_of k in
  let is_suspended := Py.get (suspend (Py.get (spec k) no_spec)) false in
  is_ready <- py_any ready_true conds ;;
  Ok (if is_suspended then "Suspended"
      else if is_ready then "Ready"
      else "Failed").

Definition filtered_out (status_filter st : string) : bool :=
  negb (status_filter =? "all")
  && negb (Py.lower st =? Py.lower status_filter).

Definition kustomization_row (status_filter : string) (k : Resource)
  : result (option string) :=
  let name := m_name (metadata k) in
  let ns := m_namespace (metadata k) in
  st <- derived_status k ;;
  if filtered_out status_filter st then Ok None
  else
    let source := Py.get (sourceRef (Py.get (spec k) no_spec)) no_ref in
    let source_str :=
      Py.get (ref_kind source) EmptyString ++ "/"
      ++ Py.get (ref_name source) EmptyString in
    Ok (Some ("| " ++ name ++ " | " ++ Py.str_of_opt ns ++ " | " ++ st
              ++ " | " ++ source_str ++ " |")).

Definition kustomizations_header : string :=
  "| Name | Namespace | Status | Source |" ++ nl
  ++ "|------|-----------|--------|--------|".

Definition list_kustomizations (k8s : Cluster) (namespace : option string)
  (status_filter : string) : result string :=
  match list_items k8s "kustomize.toolkit.fluxcd.io/v1" "Kustomization"
          namespace with
  | Raise e => Ok ("Error: " ++ Py.str_of_exn e)
  | Ok items =>
      rows <- for_each (append_row (kustomization_row status_filter)) items [] ;;
      if is_empty rows then Ok "No Kustomizations found"
      else Ok ("## Flux Kustomizations" ++ nl ++ nl ++ kustomizations_header
               ++ nl ++ join nl rows)
  end.

Definition gitrepository_row (gr : Resource) : result (option string) :=
  let name := m_name (metadata gr) in
  let ns := m_namespace (metadata gr) in
  let branch :=
    Py.get (branch (Py.get (ref (Py.get (spec gr) no_spec))
                      {| branch := None |})) "N/A" in
  let conds := conditions_of gr in
  is_ready <- py_any ready_true conds ;;
  let st := if is_ready then "Ready" else "Failed" in
  Ok (Some ("| " ++ name ++ " | " ++ Py.str_of_opt ns ++ " | " ++ st
            ++ " | " ++ branch ++ " |")).

Definition gitrepositories_header : string :=
  "| Name | Namespace | Status | Branch |" ++ nl
  ++ "|------|-----------|--------|--------|".

Definition list_gitrepositories (k8s : Cluster) (namespace : option string)
  : result string :=
  match list_items k8s "source.toolkit.fluxcd.io/v1" "GitRepository"
          namespace with
  | Raise e => Ok ("Error: " ++ Py.str_of_exn e)
  | Ok items =>
      rows <- for_each (append_row gitrepository_row) items [] ;;
      if is_empty rows then Ok "No GitRepositories found"
      else Ok ("## GitRepositories" ++ nl ++ nl ++ gitrepositories_header
               ++ nl ++ join nl rows)
  end.

Definition helmrelease_row (status_filter : string) (hr : Resource)
  : result (option string) :=
  let name := m_name (metadata hr) in
  let ns := m_namespace (metadata hr) in
  st <- derived_status hr ;;
  if filtered_out status_filter st then Ok None
  else
    let chart_ :=
      Py.get (chart_spec (Py.get (chart (Py.get (spec hr) no_spec))
                            {| chart_spec := None |}))
             {| chart_name := None |} in
    let name_of_chart := Py.get (chart_name chart_) "N/A" in
    Ok (Some ("| " ++ name ++ " | " ++ Py.str_of_opt ns ++ " | " ++ st
              ++ " | " ++ name_of_chart ++ " |")).

Definition helmreleases_header : string :=
  "| Name | Namespace | Status | Chart |" ++ nl
  ++ "|------|-----------|--------|-------|".

Definition get_helmreleases (k8s : Cluster) (namespace : option string)
  (status_filter : string) : result string :=
  match list_items k8s "helm.toolkit.fluxcd.io/v2" "HelmRelease"
          namespace with
  | Raise e => Ok ("Error: " ++ Py.str_of_exn e)
  | Ok items =>
      rows <- for_each (append_row (helmrelease_row status_filter)) items [] ;;
      if is_empty rows then Ok "No HelmReleases found"
      else Ok ("## HelmReleases" ++ nl ++ nl ++ helmreleases_header
               ++ nl ++ join nl rows)
  end.

Definition kustomization_condition_row (output : string) (c : Condition)
  : result string :=
  let msg := Py.slice_to 60 (Py.get (c_message c) EmptyString) in
  Ok (output ++ "| " ++ Py.str_of_opt (c_type c) ++ " | "
      ++ Py.str_of_opt (c_status c) ++ " | "
      ++ Py.get (c_reason c) EmptyString ++ " | " ++ msg ++ " |" ++ nl).

Definition get_kustomization (k8s : Cluster) (name namespace : string)
  : result string :=
  match dyn_get k8s "kustomize.toolkit.fluxcd.io/v1" "Kustomization"
          name namespace with
  | Raise e => Ok ("Error: " ++ Py.str_of_exn e)
  | Ok k =>
      let spec_ := Py.get (spec k) no_spec in
      let status_ := Py.get (status k) no_status in
      let conds := Py.get (conditions status_) [] in
      let source := Py.get (sourceRef spec_) no_ref in
      let output :=
        "## Kustomization: " ++ name ++ nl ++ nl
        ++ "**Namespace:** " ++ namespace ++ nl
        ++ "**Path:** " ++ Py.get (path spec_) "N/A" ++ nl
        ++ "**Interval:** " ++ Py.get (interval spec_) "N/A" ++ nl
        ++ "**Suspended:** " ++ Py.str_of_bool (Py.get (suspend spec_) false)
        ++ nl ++ nl
        ++ "### Source" ++ nl
        ++ "- **Kind:** " ++ Py.get (ref_kind source) "N/A" ++ nl
        ++ "- **Name:** " ++ Py.get (ref_name source) "N/A" ++ nl ++ nl
        ++ "### Conditions" ++ nl ++ nl
        ++ "| Type | Status | Reason | Message |" ++ nl
        ++ "|------|--------|--------|---------|" ++ nl in
      for_each kustomization_condition_row conds output
  end.

(** [api_map] of [debug_reconciliation], looked up at a lower-cased key *)
Definition api_map (key : string) : option (string * string) :=
  if key =? "kustomization" then
    Some ("kustomize.toolkit.fluxcd.io/v1", "Kustomization")
  else if key =? "gitrepository" then
    Some ("source.toolkit.fluxcd.io/v1", "GitRepository")
  else if key =? "helmrelease" then
    Some ("helm.toolkit.fluxcd.io/v2", "HelmRelease")
  else None.

Definition debug_condition_row (output : string) (c : Condition)
  : result string :=
  let message := Py.get (c_message c) EmptyString in
  let msg :=
    if (50 <? String.length message)%nat then Py.slice_to 50 message ++ "..."
    else message in
  Ok (output ++ "| " ++ Py.str_of_opt (c_type c) ++ " | "
      ++ Py.str_of_opt (c_status c) ++ " | "
      ++ Py.get (c_reason c) EmptyString ++ " | "
      ++ Py.slice_to 19 (Py.get (c_lastTransitionTime c) EmptyString)
      ++ " | " ++ msg ++ " |" ++ nl).

Definition hint_source : string :=
  "- Check if the source (GitRepository/HelmRepository) exists and is ready"
  ++ nl.

Definition hint_validation : string :=
  "- Check the manifest syntax and Kubernetes API compatibility" ++ nl.

Definition hint_health : string :=
  "- Check if deployed resources are healthy (pods running, etc.)" ++ nl.

(** The body of the recommendations loop *)
Definition recommend (output : string) (c : Condition) : result string :=
  if Py.opt_eqb (c_status c) "False" && Py.opt_eqb (c_type c) "Ready" then
    let reason := Py.get (c_reason c) EmptyString in
    let output :=
      if Py.contains "Source" reason then output ++ hint_source else output in
    let output :=
      if Py.contains "Validation" reason then output ++ hint_validation
      else output in
    let output :=
      if Py.contains "Health" reason then output ++ hint_health else output in
    Ok output
  else Ok output.

Definition debug_header (kind name namespace : string) : string :=
  "## Debug: " ++ kind ++ "/" ++ name ++ nl ++ nl
  ++ "**Namespace:** " ++ namespace ++ nl ++ nl
  ++ "### Conditions" ++ nl ++ nl
  ++ "| Type | Status | Reason | Last Transition | Message |" ++ nl
  ++ "|------|--------|--------|-----------------|---------|" ++ nl.

Definition debug_reconciliation (k8s : Cluster)
  (resource_type name namespace : string) : result string :=
  match api_map (Py.lower resource_type) with
  | None =>
      Ok ("Unknown resource type: " ++ resource_type
          ++ ". Use: kustomization, gitrepository, helmrelease")
  | Some (api_version, kind) =>
      match dyn_get k8s api_version kind name namespace with
      | Raise e => Ok ("Error: " ++ Py.str_of_exn e)
      | Ok resource =>
          let conds := conditions_of resource in
          let output := debug_header kind name namespace in
          output <- for_each debug_condition_row conds output ;;
          let output := output ++ nl ++ "### Recommendations" ++ nl ++ nl in
          for_each recommend conds output
      end
  end.

(** ** cluster.py *)

Definition cluster_row (cluster_name : option string) (c : Resource)
  : result (option string) :=
  if Py.truthy_opt cluster_name
     && negb (Py.opt_eqb cluster_name (m_name (metadata c)))
  then Ok None
  else
    let name := m_name (metadata c) in
    let ns := m_namespace (metadata c) in
    let status_ := Py.get (status c) no_status in
    let phase_ := Py.get (phase status_) "Unknown" in
    let infra_ready := Py.get (infrastructureReady status_) false in
    let cp_ready := Py.get (controlPlaneReady status_) false in
    let status_icon :=
      if phase_ =? "Provisioned" then "✅"
      else if phase_ =? "Provisioning" then "⏳"
      else "❌" in
    Ok (Some ("| " ++ status_icon ++ " | " ++ name ++ " | "
              ++ Py.str_of_opt ns ++ " | " ++ phase_ ++ " | "
              ++ Py.str_of_bool infra_ready ++ " | "
              ++ Py.str_of_bool cp_ready ++ " |")).

Definition clusters_header : string :=
  "| | Name | Namespace | Phase | Infra Ready | CP Ready |" ++ nl
  ++ "|---|------|-----------|-------|-------------|----------|".

Definition get_cluster_status (k8s : Cluster)
  (cluster_name namespace : option string) : result string :=
  match list_items k8s "cluster.x-k8s.io/v1beta1" "Cluster" namespace with
  | Raise e =>
      Ok ("Error: CAPI not installed or no access: " ++ Py.str_of_exn e)
  | Ok items =>
      rows <- for_each (append_row (cluster_row cluster_name)) items [] ;;
      if is_empty rows then Ok "No CAPI clusters found"
      else Ok ("## CAPI Clusters" ++ nl ++ nl ++ clusters_header
               ++ nl ++ join nl rows)
  end.

(** [labels.get(key, default)]: the labels are a mapping, read as the
    first pair with that key. *)
Fixpoint labels_get (key : string) (l : list (string * string))
  (default : string) : string :=
  match l with
  | [] => default
  | (k, v) :: rest => if k =? key then v else labels_get key rest default
  end.

Definition machine_row (cluster_name : option string) (m : Resource)
  : result (option string) :=
  m_cluster <-
    match m_labels (metadata m) with
    | Some l => Ok (labels_get "cluster.x-k8s.io/cluster-name" l EmptyString)
    | None => Raise (AttributeError "'NoneType' object has no attribute 'get'")
    end ;;
  if Py.truthy_opt cluster_name && negb (Py.opt_eqb cluster_name m_cluster)
  then Ok None
  else
    let name := m_name (metadata m) in
    let ns := m_namespace (metadata m) in
    let status_ := Py.get (status m) no_status in
    let phase_ := Py.get (phase status_) "Unknown" in
    let node_ref := Py.get (ref_name (Py.get (nodeRef status_) no_ref)) "N/A" in
    Ok (Some ("| " ++ name ++ " | " ++ Py.str_of_opt ns ++ " | " ++ m_cluster
              ++ " | " ++ phase_ ++ " | " ++ node_ref ++ " |")).

Definition machines_header : string :=
  "| Name | Namespace | Cluster | Phase | Node |" ++ nl
  ++ "|------|-----------|---------|-------|------|".

Definition list_machines (k8s : Cluster)
  (cluster_name namespace : option string) : result string :=
  match list_items k8s "cluster.x-k8s.io/v1beta1" "Machine" namespace with
  | Raise e => Ok ("Error: " ++ Py.str_of_exn e)
  | Ok items =>
      rows <- for_each (append_row (machine_row cluster_name)) items [] ;;
      if is_empty rows then Ok "No CAPI machines found"
      else Ok ("## CAPI Machines" ++ nl ++ nl ++ machines_header
               ++ nl ++ join nl rows)
  end.

(** A sort key of [get_events]: a [datetime], or the empty string *)
Inductive Key : Type :=
| Stamp (instant : Z)
| NoStamp.

(** [e.last_timestamp or e.event_time or ""] (a [datetime] is always true) *)
Definition event_key (e : Event) : Key :=
  match last_timestamp e with
  | Some t => Stamp t
  | None =>
      match event_time e with
      | Some t => Stamp t
      | None => NoStamp
      end
  end.

(** [a < b] on keys: two [datetime]s compare as instants, the empty string
    is not less than itself, and a [datetime] and a string do not compare
    ([TypeError], whose text names the two types in the order compared). *)
Definition key_lt (a b : Key) : result bool :=
  match a, b with
  | Stamp x, Stamp y => Ok (x <? y)%Z
  | NoStamp, NoStamp => Ok false
  | Stamp _, NoStamp =>
      Raise (TypeError
        "'<' not supported between instances of 'datetime.datetime' and 'str'")
  | NoStamp, Stamp _ =>
      Raise (TypeError
        "'<' not supported between instances of 'str' and 'datetime.datetime'")
  end.

(** [sorted(l, key=key, reverse=True)]: the stable sort by decreasing key
    (elements with equal keys keep the order they came in); it raises as
    soon as two keys do not compare, which happens for every list that holds
    keys of both kinds. *)
Fixpoint insert_desc {A : Type} (key : A -> Key) (x : A) (l : list A)
  : result (list A) :=
  match l with
  | [] => Ok [x]
  | y :: l' =>
      lt <- key_lt (key x) (key y) ;;
      if lt then rest <- insert_desc key x l' ;; Ok (y :: rest)
      else Ok (x :: l)
  end.

Fixpoint sorted_reverse {A : Type} (key : A -> Key) (l : list A)
  : result (list A) :=
  match l with
  | [] => Ok []
  | x :: rest => sorted <- sorted_reverse key rest ;; insert_desc key x sorted
  end.

Definition event_row (e : Event) : string :=
  let kind := involved_kind e in
  let name := involved_name e in
  let reason :=
    if Py.truthy_opt (ev_reason e) then Py.get (ev_reason e) EmptyString
    else EmptyString in
  let message :=
    Py.slice_to 60
      (if Py.truthy_opt (ev_message e) then Py.get (ev_message e) EmptyString
       else EmptyString) in
  let etype := ev_type e in
  let type_icon := if Py.opt_eqb etype "Warning" then "⚠️" else "ℹ️" in
  "| " ++ type_icon ++ " | " ++ Py.str_of_opt kind ++ "/"
  ++ Py.str_of_opt name ++ " | " ++ reason ++ " | " ++ message ++ " |".

(** [resource_name and e.involved_object.name != resource_name] *)
Definition other_resource (resource_name : option string) (e : Event) : bool :=
  match resource_name with
  | Some rn => Py.truthy rn && negb (Py.opt_eqb (involved_name e) rn)
  | None => false
  end.

(** [event_type != "all" and e.type != event_type] *)
Definition other_type (event_type : string) (e : Event) : bool :=
  negb (event_type =? "all") && negb (Py.opt_eqb (ev_type e) event_type).

(** The loop of [get_events] over the sorted events, with its [break] and
    its two [continue]s; [rows] and [count] are the loop's variables. *)
Fixpoint events_loop (resource_name : option string) (event_type : string)
  (max_count : Z) (events : list Event) (rows : list string) (count : Z)
  : list string :=
  match events with
  | [] => rows
  | e :: rest =>
      if (max_count <=? count)%Z then rows
      else if other_resource resource_name e then
        events_loop resource_name event_type max_count rest rows count
      else if other_type event_type e then
        events_loop resource_name event_type max_count rest rows count
      else
        events_loop resource_name event_type max_count rest
          (rows ++ [event_row e])%list (count + 1)%Z
  end.

Definition events_header : string :=
  "| Type | Resource | Reason | Message |" ++ nl
  ++ "|------|----------|--------|---------|".

Definition get_events (k8s : Cluster) (namespace : string)
  (resource_name : option string) (event_type limit : string)
  : result string :=
  match list_namespaced_event k8s namespace with
  | Raise e => Ok ("Error: " ++ Py.str_of_exn e)
  | Ok items =>
      sorted_events <- sorted_reverse event_key items ;;
      max_count <- Py.int limit ;;
      let rows :=
        events_loop resource_name event_type max_count sorted_events [] 0 in
      if is_empty rows then Ok ("No events found in namespace " ++ namespace)
      else Ok ("## Events in " ++ namespace ++ nl ++ nl ++ events_header
               ++ nl ++ join nl rows)
  end.

Definition get_pod_logs (k8s : Cluster) (pod_name namespace : string)
  (container : option string) (tail_lines : string) : result string :=
  match (n <- Py.int tail_lines ;;
         read_namespaced_pod_log k8s pod_name namespace container n) with
  | Raise e => Ok ("Error getting logs: " ++ Py.str_of_exn e)
  | Ok logs =>
      let container_str :=
        if Py.truthy_opt container then
          " (container: " ++ Py.str_of_opt container ++ ")"
        else EmptyString in
      Ok ("## Pod Logs: " ++ pod_name ++ container_str ++ nl ++ nl
          ++ "**Namespace:** " ++ namespace ++ nl
          ++ "**Lines:** " ++ tail_lines ++ nl ++ nl
          ++ "```" ++ nl ++ logs ++ nl ++ "```" ++ nl)
  end.

(** ** apps.py *)

(** A loop inside [try: ... except Exception: pass] over a list it appends
    to: an exception ends the loop and what was appended before stays. *)
Fixpoint for_each_caught {A S : Type} (body : S -> A -> result S)
  (items : list A) (st : S) : S :=
  match items with
  | [] => st
  | x :: rest =>
      match body st x with
      | Ok st' => for_each_caught body rest st'
      | Raise _ => st
      end
  end.

Record AppResult : Type := {
  app_type : string;
  app_name_ : string;
  app_namespace : option string;
  app_status : string
}.

Definition app_entry (type_ : string) (app_name : option string)
  (results_ : list AppResult) (app : Resource) : result (list AppResult) :=
  if Py.truthy_opt app_name
     && negb (Py.opt_eqb app_name (m_name (metadata app)))
  then Ok results_
  else
    let name := m_name (metadata app) in
    let ns := m_namespace (metadata app) in
    let conds := conditions_of app in
    is_ready <- py_any ready_true conds ;;
    let st := if is_ready then "Ready" else "Not Ready" in
    Ok (results_ ++ [{| app_type := type_; app_name_ := name;
                        app_namespace := ns; app_status := st |}])%list.

Definition app_results_row (r : AppResult) : string :=
  "| " ++ app_type r ++ " | " ++ app_name_ r ++ " | "
  ++ Py.str_of_opt (app_namespace r) ++ " | " ++ app_status r ++ " |".

Definition apps_header : string :=
  "| Type | Name | Namespace | Status |" ++ nl
  ++ "|------|------|-----------|--------|".

(** The [results] list after the two [try] blocks *)
Definition app_results (k8s : Cluster) (workspace app_name : option string)
  : list AppResult :=
  let results_ := [] in
  let results_ :=
    match list_items k8s "apps.kommander.d2iq.io/v1alpha2" "App" workspace with
    | Ok items => for_each_caught (app_entry "App" app_name) items results_
    | Raise _ => results_
    end in
  match dyn_list k8s "apps.kommander.d2iq.io/v1alpha2" "ClusterApp" None with
  | Ok items => for_each_caught (app_entry "ClusterApp" app_name) items results_
  | Raise _ => results_
  end.

Definition get_app_deployments (k8s : Cluster)
  (workspace app_name : option string) : string :=
  let results_ := app_results k8s workspace app_name in
  if is_empty results_ then
    "No Kommander Apps/ClusterApps found (Kommander may not be installed)"
  else
    let rows := map app_results_row results_ in
    "## Kommander Applications" ++ nl ++ nl ++ apps_header ++ nl
    ++ join nl rows.

(** ** policy.py *)

(** An entry of the [violations] list the two engines' checks build *)
Record PolicyViolation : Type := {
  engine : string;
  policy : string;
  resource : string;
  message : string
}.

(** [kind.title().replace("-", empty)]: the constraint kind looked up for a
    template named [kind]. *)
Definition constraint_kind_of (kind : string) : string :=
  Py.remove_char "-" (Py.title kind).

(** [namespace and v.get("namespace") != namespace] *)
Definition other_namespace (namespace : option string) (v : Violation) : bool :=
  match namespace with
  | Some ns => Py.truthy ns && negb (Py.opt_eqb (v_namespace v) ns)
  | None => false
  end.

(** The body of the loop over one constraint's [status.violations] *)
Definition gatekeeper_violation (namespace : option string)
  (constraint : Resource) (violations_ : list PolicyViolation) (v : Violation)
  : list PolicyViolation :=
  if other_namespace namespace v then violations_
  else
    (violations_ ++
     [{| engine := "Gatekeeper";
         policy := m_name (metadata constraint);
         resource := Py.get (v_kind v) EmptyString ++ "/"
                     ++ Py.get (v_name v) EmptyString;
         message := Py.get (v_message v) "No message" |}])%list.

Definition gatekeeper_constraint (namespace : option string)
  (violations_ : list PolicyViolation) (constraint : Resource)
  : list PolicyViolation :=
  let status_ := Py.get (status constraint) no_status in
  let total_violations := Py.get (totalViolations status_) 0%Z in
  if (0 <? total_violations)%Z then
    let violation_list := Py.get (violations status_) [] in
    fold_left (gatekeeper_violation namespace constraint) violation_list
      violations_
  else violations_.

(** The body of the loop over the templates, with its inner [try]:
    a failing lookup of the constraint kind goes on to the next template. *)
Definition gatekeeper_template (k8s : Cluster) (namespace : option string)
  (violations_ : list PolicyViolation) (template : Resource)
  : list PolicyViolation :=
  let kind := m_name (metadata template) in
  match dyn_list k8s "constraints.gatekeeper.sh/v1beta1"
          (constraint_kind_of kind) None with
  | Ok constraints =>
      fold_left (gatekeeper_constraint namespace) constraints violations_
  | Raise _ => violations_
  end.

Definition _check_gatekeeper_violations (k8s : Cluster)
  (namespace : option string) : list PolicyViolation :=
  match dyn_list k8s "templates.gatekeeper.sh/v1" "ConstraintTemplate" None with
  | Ok templates => fold_left (gatekeeper_template k8s namespace) templates []
  | Raise _ => []
  end.

(** [r.get('resources', [{}])[0]]: [IndexError] on an empty list *)
Definition first_resource (r : ReportResult) : result ObjectRef :=
  match Py.get (rr_resources r) [no_ref] with
  | first :: _ => Ok first
  | [] => Raise IndexError
  end.

Definition kyverno_result (violations_ : list PolicyViolation)
  (r : ReportResult) : result (list PolicyViolation) :=
  if Py.opt_eqb (rr_result r) "fail" then
    res_kind <- first_resource r ;;
    res_name <- first_resource r ;;
    Ok (violations_ ++
        [{| engine := "Kyverno";
            policy := Py.get (rr_policy r) "Unknown";
            resource := Py.get (ref_kind res_kind) EmptyString ++ "/"
                        ++ Py.get (ref_name res_name) EmptyString;
            message := Py.get (rr_message r) "No message" |}])%list
  else Ok violations_.

(** The two nested loops of a [try] block of [_check_kyverno_violations]:
    the list appended to so far, and whether an exception left the loops. *)
Fixpoint kyverno_results (rs : list ReportResult)
  (violations_ : list PolicyViolation) : list PolicyViolation * bool :=
  match rs with
  | [] => (violations_, false)
  | r :: rest =>
      match kyverno_result violations_ r with
      | Ok violations' => kyverno_results rest violations'
      | Raise _ => (violations_, true)
      end
  end.

Fixpoint kyverno_reports (reports : list Resource)
  (violations_ : list PolicyViolation) : list PolicyViolation :=
  match reports with
  | [] => violations_
  | report :: rest =>
      let '(violations', raised) :=
        kyverno_results (Py.get (results report) []) violations_ in
      if raised then violations' else kyverno_reports rest violations'
  end.

Definition _check_kyverno_violations (k8s : Cluster)
  (namespace : option string) : list PolicyViolation :=
  let violations_ := [] in
  let violations_ :=
    match dyn_list k8s "wgpolicyk8s.io/v1alpha2" "ClusterPolicyReport" None with
    | Ok reports => kyverno_reports reports violations_
    | Raise _ => violations_
    end in
  match list_items k8s "wgpolicyk8s.io/v1alpha2" "PolicyReport" namespace with
  | Ok reports => kyverno_reports reports violations_
  | Raise _ => violations_
  end.

(** [policy_engine in [a, b]] *)
Definition in_list (s : string) (l : list string) : bool :=
  existsb (String.eqb s) l.

(** The [violations] list of [check_policy_violations] before it is
    rendered *)
Definition policy_violations (k8s : Cluster) (namespace : option string)
  (policy_engine : string) : list PolicyViolation :=
  let violations_ := [] in
  let violations_ :=
    if in_list policy_engine ["gatekeeper"; "both"] then
      (violations_ ++ _check_gatekeeper_violations k8s namespace)%list
    else violations_ in
  if in_list policy_engine ["kyverno"; "both"] then
    (violations_ ++ _check_kyverno_violations k8s namespace)%list
  else violations_.

Definition policy_violation_row (v : PolicyViolation) : string :=
  "| " ++ engine v ++ " | " ++ policy v ++ " | " ++ resource v ++ " | "
  ++ Py.slice_to 50 (message v) ++ " |".

Definition violations_header : string :=
  "| Engine | Policy | Resource | Message |" ++ nl
  ++ "|--------|--------|----------|---------|".

Definition check_policy_violations (k8s : Cluster)
  (namespace : option string) (policy_engine : string) : string :=
  let violations_ := policy_violations k8s namespace policy_engine in
  if is_empty violations_ then
    "## Policy Violations" ++ nl ++ nl
    ++ "**Engine(s) checked:** " ++ policy_engine ++ nl
    ++ "**Result:** ✅ No violations found" ++ nl
  else
    let rows := map policy_violation_row violations_ in
    "## Policy Violations" ++ nl ++ nl
    ++ "**Engine(s) checked:** " ++ policy_engine ++ nl
    ++ "**Violations found:** " ++ Py.str_of_nat (length violations_)
    ++ nl ++ nl ++ violations_header ++ nl ++ join nl rows.

Record ConstraintEntry : Type := {
  ce_kind : string;
  ce_name : string;
  ce_enforcement : string;
  ce_violations : Z
}.

Definition constraint_entry (kind : string) (constraints : list ConstraintEntry)
  (c : Resource) : list ConstraintEntry :=
  let name := m_name (metadata c) in
  let enforcement :=
    Py.get (enforcementAction (Py.get (spec c) no_spec)) "deny" in
  let total_violations :=
    Py.get (totalViolations (Py.get (status c) no_status)) 0%Z in
  (constraints ++
   [{| ce_kind := kind; ce_name := name; ce_enforcement := enforcement;
       ce_violations := total_violations |}])%list.

(** [constraint_kind and kind.lower() != constraint_kind.lower()] *)
Definition other_kind (constraint_kind : option string) (kind : string) : bool :=
  match constraint_kind with
  | Some ck => Py.truthy ck && negb (Py.lower kind =? Py.lower ck)
  | None => false
  end.

Definition constraints_of_template (k8s : Cluster)
  (constraint_kind : option string) (constraints : list ConstraintEntry)
  (template : Resource) : list ConstraintEntry :=
  let kind := m_name (metadata template) in
  if other_kind constraint_kind kind then constraints
  else
    match dyn_list k8s "constraints.gatekeeper.sh/v1beta1"
            (constraint_kind_of kind) None with
    | Ok items => fold_left (constraint_entry kind) items constraints
    | Raise _ => constraints
    end.

Definition constraint_row (c : ConstraintEntry) : string :=
  let violation_str :=
    if (0 <? ce_violations c)%Z then "❌ " ++ Py.str_of_Z (ce_violations c)
    else "✅ 0" in
  "| " ++ ce_kind c ++ " | " ++ ce_name c ++ " | " ++ ce_enforcement c
  ++ " | " ++ violation_str ++ " |".

Definition constraints_header : string :=
  "| Kind | Name | Enforcement | Violations |" ++ nl
  ++ "|------|------|-------------|------------|".

Definition list_constraints (k8s : Cluster) (constraint_kind : option string)
  : string :=
  match dyn_list k8s "templates.gatekeeper.sh/v1" "ConstraintTemplate" None with
  | Raise e =>
      "Error: Gatekeeper not installed or no access: " ++ Py.str_of_exn e
  | Ok templates =>
      let constraints :=
        fold_left (constraints_of_template k8s constraint_kind) templates [] in
      if is_empty constraints then "No Gatekeeper constraints found"
      else
        let rows := map constraint_row constraints in
        "## Gatekeeper Constraints" ++ nl ++ nl ++ constraints_header ++ nl
        ++ join nl rows
  end.

(** ** flux.py: the summary *)

(** [results["kustomizations"]], the three counters *)
Record Counts : Type := {
  n_ready : Z;
  n_failed : Z;
  n_suspended : Z
}.

(** The body of the loop of [get_gitops_status] *)
Definition count_kustomization (r : Counts) (k : Resource) : result Counts :=
  let conds := conditions_of k in
  let is_suspended := Py.get (suspend (Py.get (spec k) no_spec)) false in
  is_ready <- py_any ready_true conds ;;
  Ok (if is_suspended then
        {| n_ready := n_ready r; n_failed := n_failed r;
           n_suspended := (n_suspended r + 1)%Z |}
      else if is_ready then
        {| n_ready := (n_ready r + 1)%Z; n_failed := n_failed r;
           n_suspended := n_suspended r |}
      else
        {| n_ready := n_ready r; n_failed := (n_failed r + 1)%Z;
           n_suspended := n_suspended r |}).

Definition gitops_summary (r : Counts) : string :=
  let total := (n_ready r + n_failed r + n_suspended r)%Z in
  "## GitOps Status Summary" ++ nl ++ nl
  ++ "| Resource | Ready | Failed | Suspended | Total |" ++ nl
  ++ "|----------|-------|--------|-----------|-------|" ++ nl
  ++ "| Kustomizations | " ++ Py.str_of_Z (n_ready r) ++ " | "
  ++ Py.str_of_Z (n_failed r) ++ " | " ++ Py.str_of_Z (n_suspended r)
  ++ " | " ++ Py.str_of_Z total ++ " |" ++ nl ++ nl
  ++ "**Health:** "
  ++ (if (n_failed r =? 0)%Z then "✅ Healthy" else "❌ Issues Detected")
  ++ nl.

(** The whole lookup and loop are inside the [try]. *)
Definition get_gitops_status (k8s : Cluster) (namespace : option string)
  : string :=
  let results_ := {| n_ready := 0; n_failed := 0; n_suspended := 0 |} in
  match (items <- list_items k8s "kustomize.toolkit.fluxcd.io/v1"
                    "Kustomization" namespace ;;
         for_each count_kustomization items results_) with
  | Raise e => "Error querying Flux resources: " ++ Py.str_of_exn e
  | Ok r => gitops_summary r
  end.

(** ** server.py *)

(** An entry of the kubeconfig's contexts: a mapping with a [name] and a
    [context] mapping. *)
Record ContextBody : Type := {
  cb_cluster : option string;
  cb_user : option string;
  cb_namespace : option string
}.

Record KubeContext : Type := {
  kc_name : option string;
  kc_context : option ContextBody
}.

Definition context_row (active_context : KubeContext) (ctx : KubeContext)
  : result (option string) :=
  name <- Py.getitem "name" (kc_name ctx) ;;
  body <- Py.getitem "context" (kc_context ctx) ;;
  let cluster := Py.get (cb_cluster body) EmptyString in
  body' <- Py.getitem "context" (kc_context ctx) ;;
  let user := Py.get (cb_user body') EmptyString in
  active_name <- Py.getitem "name" (kc_name active_context) ;;
  let is_current := if name =? active_name then "→" else EmptyString in
  Ok (Some ("| " ++ is_current ++ " | " ++ name ++ " | " ++ cluster ++ " | "
            ++ user ++ " |")).

Definition contexts_header : string :=
  "| Current | Name | Cluster | User |" ++ nl
  ++ "|---------|------|---------|------|".

(** [kubeconfig] is what [config.list_kube_config_contexts()] gives: the
    contexts and the active one, or an exception. *)
Definition list_contexts (kubeconfig : result (list KubeContext * KubeContext))
  : result string :=
  match kubeconfig with
  | Raise e => Ok ("Error loading kubeconfig: " ++ Py.str_of_exn e)
  | Ok (contexts, active_context) =>
      rows <- for_each (append_row (context_row active_context)) contexts [] ;;
      Ok ("## Kubernetes Contexts" ++ nl ++ nl ++ contexts_header ++ nl
          ++ join nl rows)
  end.

(** The whole body is inside the [try]. *)
Definition get_current_context
  (kubeconfig : result (list KubeContext * KubeContext)) : string :=
  match (match kubeconfig with
         | Raise e => Raise e
         | Ok (_, active_context) =>
             name <- Py.getitem "name" (kc_name active_context) ;;
             body <- Py.getitem "context" (kc_context active_context) ;;
             Ok ("## Current Context" ++ nl ++ nl
                 ++ "**Name:** " ++ name ++ nl
                 ++ "**Cluster:** " ++ Py.get (cb_cluster body) "N/A" ++ nl
                 ++ "**User:** " ++ Py.get (cb_user body) "N/A" ++ nl
                 ++ "**Namespace:** " ++ Py.get (cb_namespace body) "default"
                 ++ nl)
         end) with
  | Ok text => text
  | Raise e => "Error: " ++ Py.str_of_exn e
  end.

(** * Vocabulary of the statements *)

(** ** Conditions and status *)

(** A condition that carries the two keys the tools subscript *)
Definition well_formed (c : Condition) : bool :=
  match c_type c, c_status c with
  | Some _, Some _ => true
  | _, _ => false
  end.

(** [type == "Ready"] and [status == "True"] *)
Definition is_ready_true (c : Condition) : Prop :=
  c_type c = Some "Ready" /\ c_status c = Some "True".

Definition is_ready_trueb (c : Condition) : bool :=
  Py.opt_eqb (c_type c) "Ready" && Py.opt_eqb (c_status c) "True".

(** [spec.suspend] is true *)
Definition suspended (k : Resource) : Prop :=
  exists s, spec k = Some s /\ suspend s = Some true.

Definition suspendedb (k : Resource) : bool :=
  Py.get (suspend (Py.get (spec k) no_spec)) false.

(** [k] with [spec.suspend] set to [b] (or removed, for [None]) *)
Definition with_suspend (b : option bool) (k : Resource) : Resource :=
  let s := Py.get (spec k) no_spec in
  {| metadata := metadata k;
     spec := Some {| suspend := b; sourceRef := sourceRef s; path := path s;
                     interval := interval s; url := url s; ref := ref s;
                     chart := chart s;
                     enforcementAction := enforcementAction s |};
     status := status k;
     results := results k |}.

(** Every condition of [k] carries its keys; [m] carries labels *)
Definition conditions_ok (k : Resource) : bool :=
  forallb well_formed (conditions_of k).


(** The status of [derived_status] when no subscript raises *)
Definition status_of (k : Resource) : string :=
  if suspendedb k then "Suspended"
  else if existsb is_ready_trueb (conditions_of k) then "Ready"
  else "Failed".


(** ** The rows of the listings, as functions of the objects *)

Definition status_kept (status_filter : string) (k : Resource) : bool :=
  negb (filtered_out status_filter (status_of k)).

Definition kustomization_line (k : Resource) : string :=
  let source := Py.get (sourceRef (Py.get (spec k) no_spec)) no_ref in
  "| " ++ m_name (metadata k) ++ " | "
  ++ Py.str_of_opt (m_namespace (metadata k)) ++ " | " ++ status_of k
  ++ " | " ++ (Py.get (ref_kind source) EmptyString ++ "/"
               ++ Py.get (ref_name source) EmptyString) ++ " |".

Definition helmrelease_line (hr : Resource) : string :=
  "| " ++ m_name (metadata hr) ++ " | "
  ++ Py.str_of_opt (m_namespace (metadata hr)) ++ " | " ++ status_of hr
  ++ " | "
  ++ Py.get (chart_name
               (Py.get (chart_spec (Py.get (chart (Py.get (spec hr) no_spec))
                                      {| chart_spec := None |}))
                       {| chart_name := None |})) "N/A"
  ++ " |".

(** The row [list_gitrepositories] prints for [gr] at status [st] *)
Definition gitrepository_line (gr : Resource) (st : string) : string :=
  "| " ++ m_name (metadata gr) ++ " | "
  ++ Py.str_of_opt (m_namespace (metadata gr)) ++ " | " ++ st ++ " | "
  ++ Py.get (branch (Py.get (ref (Py.get (spec gr) no_spec))
                       {| branch := None |})) "N/A" ++ " |".






(** An event that passes both filters of [get_events]: it is about the
    resource named, when a name is given, and of the type asked for, unless
    the type is [all]. *)
Definition about_resource (resource_name : option string) (e : Event) : bool :=
  match resource_name with
  | None => true
  | Some n => (n =? EmptyString) || Py.opt_eqb (involved_name e) n
  end.

Definition of_type (event_type : string) (e : Event) : bool :=
  (event_type =? "all") || Py.opt_eqb (ev_type e) event_type.

Definition event_kept (resource_name : option string) (event_type : string)
  (e : Event) : bool :=
  about_resource resource_name e && of_type event_type e.

(** The order of two keys of one kind: instants, and the empty string
    equal to itself *)
Definition key_leb (a b : Key) : bool :=
  match a, b with
  | Stamp x, Stamp y => (x <=? y)%Z
  | NoStamp, NoStamp => true
  | _, _ => false
  end.

Definition key_eqb (a b : Key) : bool :=
  match a, b with
  | Stamp x, Stamp y => (x =? y)%Z
  | NoStamp, NoStamp => true
  | _, _ => false
  end.

(** Decreasing keys: an element's key is at least the key of every later one *)
Definition key_ge {A : Type} (key : A -> Key) (a b : A) : Prop :=
  key_leb (key b) (key a) = true.

(** The keys of a list are of both kinds: some [datetime], some string *)
Definition is_stamp (k : Key) : bool :=
  match k with
  | Stamp _ => true
  | NoStamp => false
  end.

Definition mixed_keys {A : Type} (key : A -> Key) (l : list A) : bool :=
  existsb (fun x => is_stamp (key x)) l
  && existsb (fun x => negb (is_stamp (key x))) l.

(** Every key of [l] is of the kind [stamped] *)
Definition all_kind {A : Type} (key : A -> Key) (stamped : bool) (l : list A)
  : bool :=
  forallb (fun x => Bool.eqb (is_stamp (key x)) stamped) l.

(** The stable sort by decreasing key of a list whose keys compare *)
Definition key_ltb (a b : Key) : bool :=
  match a, b with
  | Stamp x, Stamp y => (x <? y)%Z
  | _, _ => false
  end.

Fixpoint insert_by {A : Type} (key : A -> Key) (x : A) (l : list A) : list A :=
  match l with
  | [] => [x]
  | y :: l' =>
      if key_ltb (key x) (key y) then y :: insert_by key x l' else x :: l
  end.

Definition sort_by {A : Type} (key : A -> Key) (l : list A) : list A :=
  fold_right (insert_by key) [] l.

(** [app_name] unset, or the name of [app] *)
Definition app_selected (app_name : option string) (app : Resource) : bool :=
  negb (Py.truthy_opt app_name)
  || Py.opt_eqb app_name (m_name (metadata app)).

(** The rows a loop appends, from what its body yields for each item *)
Definition rows_of {A : Type} (line : A -> option string) (items : list A)
  : list string :=
  flat_map (fun x => match line x with
                     | Some l => [l]
                     | None => []
                     end) items.

(** ** Reports *)

(** The report of a listing: the sentence for no row, else the title, the
    header and the rows. *)
Definition table (title header : string) (rows : list string) : string :=
  title ++ nl ++ nl ++ header ++ nl ++ join nl rows.

Definition report (sentence title header : string) (rows : list string)
  : string :=
  match rows with
  | [] => sentence
  | _ :: _ => table title header rows
  end.




(** The report of [check_policy_violations] for a list of violations that
    is not empty *)
Definition violations_report (policy_engine : string)
  (violations_ : list PolicyViolation) : string :=
  "## Policy Violations" ++ nl ++ nl
  ++ "**Engine(s) checked:** " ++ policy_engine ++ nl
  ++ "**Violations found:** " ++ Py.str_of_nat (length violations_)
  ++ nl ++ nl ++ violations_header ++ nl
  ++ join nl (map policy_violation_row violations_).

(** Its report when there is none *)
Definition no_violations_report (policy_engine : string) : string :=
  "## Policy Violations" ++ nl ++ nl
  ++ "**Engine(s) checked:** " ++ policy_engine ++ nl
  ++ "**Result:** ✅ No violations found" ++ nl.

(** ** Recommendations *)

(** Lines put one after the other *)
Definition concat_lines (lines : list string) : string :=
  fold_right append EmptyString lines.

(** The rule table of the recommendations: a substring of the reason and the
    hint it calls for. *)
Definition hint_table : list (string * string) :=
  [("Source",
    "- Check if the source (GitRepository/HelmRepository) exists and is ready"
    ++ nl);
   ("Validation",
    "- Check the manifest syntax and Kubernetes API compatibility" ++ nl);
   ("Health",
    "- Check if deployed resources are healthy (pods running, etc.)" ++ nl)].

(** [type == "Ready"] and [status == "False"] *)
Definition is_ready_false (c : Condition) : bool :=
  Py.opt_eqb (c_status c) "False" && Py.opt_eqb (c_type c) "Ready".

(** The hints of the table that a condition calls for, in table order *)
Definition hints_of (c : Condition) : list string :=
  if is_ready_false c then
    map snd
      (filter (fun rule => Py.contains (fst rule)
                             (Py.get (c_reason c) EmptyString))
         hint_table)
  else [].

Definition hint_lines (conds : list Condition) : list string :=
  flat_map hints_of conds.

(** ** Constraint kinds *)

(** A word with its first letter in upper case, the rest as it is *)
Definition capitalize (w : string) : string :=
  match w with
  | EmptyString => EmptyString
  | String c w' => String (Py.to_upper c) w'
  end.

Fixpoint all_lower (w : string) : bool :=
  match w with
  | EmptyString => true
  | String c w' => Py.is_lower c && all_lower w'
  end.

(** ** The summary, the merged lists and the contexts *)

(** How many of [items] have the status [st] *)
Definition count_status (st : string) (items : list Resource) : Z :=
  Z.of_nat (length (filter (fun k => status_of k =? st) items)).

(** The entry [get_app_deployments] keeps for [app], read as kind [type_] *)
Definition app_result_of (type_ : string) (app : Resource) : AppResult :=
  {| app_type := type_; app_name_ := m_name (metadata app);
     app_namespace := m_namespace (metadata app);
     app_status := if existsb is_ready_trueb (conditions_of app)
                   then "Ready" else "Not Ready" |}.

(** A result of a policy report whose outcome is [fail] *)
Definition is_fail (r : ReportResult) : bool := Py.opt_eqb (rr_result r) "fail".

(** ... and one that names an empty list of resources *)
Definition no_resources (r : ReportResult) : bool :=
  match rr_resources r with
  | Some [] => true
  | _ => false
  end.

Definition kyverno_violation_of (r : ReportResult) : PolicyViolation :=
  let first := hd no_ref (Py.get (rr_resources r) [no_ref]) in
  {| engine := "Kyverno";
     policy := Py.get (rr_policy r) "Unknown";
     resource := Py.get (ref_kind first) EmptyString ++ "/"
                 ++ Py.get (ref_name first) EmptyString;
     message := Py.get (rr_message r) "No message" |}.

(** Every failing result of every report names a resource, or none at all *)
Definition reports_ok (reports : list Resource) : bool :=
  forallb (fun report =>
             forallb (fun r => negb (is_fail r && no_resources r))
               (Py.get (results report) []))
    reports.

Definition report_violations (reports : list Resource)
  : list PolicyViolation :=
  flat_map (fun report =>
              map kyverno_violation_of
                (filter is_fail (Py.get (results report) [])))
    reports.

Definition gatekeeper_violation_of (constraint : Resource) (v : Violation)
  : PolicyViolation :=
  {| engine := "Gatekeeper";
     policy := m_name (metadata constraint);
     resource := Py.get (v_kind v) EmptyString ++ "/"
                 ++ Py.get (v_name v) EmptyString;
     message := Py.get (v_message v) "No message" |}.

(** The violations one constraint contributes *)
Definition constraint_violations (namespace : option string)
  (constraint : Resource) : list PolicyViolation :=
  let status_ := Py.get (status constraint) no_status in
  if (0 <? Py.get (totalViolations status_) 0)%Z then
    map (gatekeeper_violation_of constraint)
      (filter (fun v => negb (other_namespace namespace v))
         (Py.get (violations status_) []))
  else [].

(** ... and one template, whose kind may not be served *)
Definition template_violations (k8s : Cluster) (namespace : option string)
  (template : Resource) : list PolicyViolation :=
  match dyn_list k8s "constraints.gatekeeper.sh/v1beta1"
          (constraint_kind_of (m_name (metadata template))) None with
  | Ok constraints => flat_map (constraint_violations namespace) constraints
  | Raise _ => []
  end.

(** A context that carries the keys [list_contexts] subscripts *)
Definition context_ok (ctx : KubeContext) : bool :=
  match kc_name ctx, kc_context ctx with
  | Some _, Some _ => true
  | _, _ => false
  end.

Definition context_line (active_name : string) (ctx : KubeContext) : string :=
  let name := Py.get (kc_name ctx) EmptyString in
  let body := Py.get (kc_context ctx)
                {| cb_cluster := None; cb_user := None;
                   cb_namespace := None |} in
  "| " ++ (if name =? active_name then "→" else EmptyString) ++ " | " ++ name
  ++ " | " ++ Py.get (cb_cluster body) EmptyString ++ " | "
  ++ Py.get (cb_user body) EmptyString ++ " |".

(** The row [get_kustomization] prints for a condition *)
Definition kustomization_condition_line (c : Condition) : string :=
  "| " ++ Py.str_of_opt (c_type c) ++ " | "
  ++ Py.str_of_opt (c_status c) ++ " | "
  ++ Py.get (c_reason c) EmptyString ++ " | "
  ++ Py.slice_to 60 (Py.get (c_message c) EmptyString) ++ " |" ++ nl.

(** The head of the report of [get_kustomization], before the rows *)
Definition kustomization_header (name namespace : string) (k : Resource)
  : string :=
  let spec_ := Py.get (spec k) no_spec in
  let source := Py.get (sourceRef spec_) no_ref in
  "## Kustomization: " ++ name ++ nl ++ nl
  ++ "**Namespace:** " ++ namespace ++ nl
  ++ "**Path:** " ++ Py.get (path spec_) "N/A" ++ nl
  ++ "**Interval:** " ++ Py.get (interval spec_) "N/A" ++ nl
  ++ "**Suspended:** " ++ Py.str_of_bool (Py.get (suspend spec_) false)
  ++ nl ++ nl
  ++ "### Source" ++ nl
  ++ "- **Kind:** " ++ Py.get (ref_kind source) "N/A" ++ nl
  ++ "- **Name:** " ++ Py.get (ref_name source) "N/A" ++ nl ++ nl
  ++ "### Conditions" ++ nl ++ nl
  ++ "| Type | Status | Reason | Message |" ++ nl
  ++ "|------|--------|--------|---------|" ++ nl.

(** The message cell of a row of [debug_reconciliation] *)
Definition debug_message (message : string) : string :=
  if (50 <? String.length message)%nat then Py.slice_to 50 message ++ "..."
  else message.

(** A cluster on which every lookup raises [e] *)
Definition unreachable (e : exn) : Cluster :=
  {| dyn_list := fun _ _ _ => Raise e;
     dyn_get := fun _ _ _ _ => Raise e;
     list_namespaced_event := fun _ => Raise e;
     read_namespaced_pod_log := fun _ _ _ _ => Raise e |}.

(** The items of a lookup, none when it raises *)
Definition served {A : Type} (r : result (list A)) : list A :=
  match r with
  | Ok items => items
  | Raise _ => []
  end.

(** A policy report with the results [rs] *)
Definition policy_report (rs : list ReportResult) : Resource :=
  {| metadata := {| m_name := "polr"; m_namespace := None; m_labels := None |};
     spec := None; status := None; results := Some rs |}.

Definition failing_result (policy_ : string) (resources : option (list ObjectRef))
  : ReportResult :=
  {| rr_result := Some "fail"; rr_policy := Some policy_;
     rr_resources := resources; rr_message := Some "validation failure" |}.

(** The row [debug_reconciliation] prints for a condition *)
Definition debug_condition_line (c : Condition) : string :=
  "| " ++ Py.str_of_opt (c_type c) ++ " | "
  ++ Py.str_of_opt (c_status c) ++ " | "
  ++ Py.get (c_reason c) EmptyString ++ " | "
  ++ Py.slice_to 19 (Py.get (c_lastTransitionTime c) EmptyString)
  ++ " | " ++ debug_message (Py.get (c_message c) EmptyString) ++ " |" ++ nl.

(** A failing condition whose reason calls for no hint *)
Definition silent (c : Condition) : bool :=
  negb (is_ready_false c)
  || negb (Py.contains "Source" (Py.get (c_reason c) EmptyString)
           || Py.contains "Validation" (Py.get (c_reason c) EmptyString)
           || Py.contains "Health" (Py.get (c_reason c) EmptyString)).

(** * Sample objects and clusters *)

Definition not_found : exn := ApiException "404 page not found".

Definition ready_condition : Condition :=
  {| c_type := Some "Ready"; c_status := Some "True";
     c_reason := Some "ReconciliationSucceeded";
     c_message := Some "Applied revision: main@sha1:4f2c";
     c_lastTransitionTime := Some "2024-05-01T10:00:00Z" |}.

Definition failing_condition (reason : string) : Condition :=
  {| c_type := Some "Ready"; c_status := Some "False";
     c_reason := Some reason;
     c_message := Some "kustomize build failed";
     c_lastTransitionTime := Some "2024-05-01T10:00:00Z" |}.

Definition sample_resource (name : string) (namespace : option string)
  (suspend_ : option bool) (conds : option (list Condition)) : Resource :=
  {| metadata := {| m_name := name; m_namespace := namespace;
                    m_labels := Some [] |};
     spec := Some {| suspend := suspend_; sourceRef := None; path := None;
                     interval := None; url := None; ref := None;
                     chart := None; enforcementAction := None |};
     status := Some {| conditions := conds; phase := None;
                       infrastructureReady := None; controlPlaneReady := None;
                       nodeRef := None; totalViolations := None;
                       violations := None |};
     results := None |}.

Definition suspended_ready : Resource :=
  sample_resource "apps" (Some "flux-system") (Some true)
    (Some [ready_condition]).

(** A cluster that holds one Kustomization, failing with [reason] *)
Definition failing_kustomization (reason : string) : Resource :=
  sample_resource "apps" (Some "flux-system") None
    (Some [failing_condition reason]).

Definition failing_cluster (reason : string) : Cluster :=
  {| dyn_list := fun _ _ _ => Ok [failing_kustomization reason];
     dyn_get := fun _ _ _ _ => Ok (failing_kustomization reason);
     list_namespaced_event := fun _ => Ok [];
     read_namespaced_pod_log := fun _ _ _ _ => Ok EmptyString |}.

Definition sample_event (stamp : option Z) (name : string) : Event :=
  {| last_timestamp := stamp; event_time := None;
     involved_kind := Some "Pod"; involved_name := Some name;
     ev_reason := Some "Pulled"; ev_message := Some "Image pulled";
     ev_type := Some "Normal" |}.

(** Three instants T1 < T2 < T3 (2024-05-01 10:00, 11:00 and 2024-05-02
    09:30 UTC, in microseconds) *)
Definition event_T1 : Event := sample_event (Some 1714557600000000%Z) "a".
Definition event_T2 : Event := sample_event (Some 1714561200000000%Z) "b".
Definition event_T3 : Event := sample_event (Some 1714642200000000%Z) "c".

(** An event with neither time stamp *)
Definition event_unstamped : Event := sample_event None "d".

(** A cluster that serves a stamped event and an unstamped one *)
Definition mixed_events_cluster : Cluster :=
  {| dyn_list := fun _ _ _ => Raise (ApiException "404 page not found");
     dyn_get := fun _ _ _ _ => Raise (ApiException "404 page not found");
     list_namespaced_event := fun _ => Ok [event_T1; event_unstamped];
     read_namespaced_pod_log := fun _ _ _ _ => Ok EmptyString |}.

(** A cluster with three events, served as T3, T1, T2, and nothing else *)
Definition events_cluster : Cluster :=
  {| dyn_list := fun _ _ _ => Raise (ApiException "404 page not found");
     dyn_get := fun _ _ _ _ => Raise (ApiException "404 page not found");
     list_namespaced_event := fun _ => Ok [event_T3; event_T1; event_T2];
     read_namespaced_pod_log := fun _ _ _ _ => Ok EmptyString |}.

Definition sample_violation (name : string) : Violation :=
  {| v_kind := Some "Pod"; v_name := Some name; v_namespace := Some "default";
     v_message := Some "image from a repository that is not allowed" |}.

Definition violated_constraint : Resource :=
  {| metadata := {| m_name := "repo-is-internal"; m_namespace := None;
                    m_labels := None |};
     spec := None;
     status := Some {| conditions := None; phase := None;
                       infrastructureReady := None; controlPlaneReady := None;
                       nodeRef := None; totalViolations := Some 2%Z;
                       violations := Some [sample_violation "web";
                                           sample_violation "db"] |};
     results := None |}.

(** A cluster whose Gatekeeper holds the template [template] and serves the
    constraints [constraints] under the kind [kind], and nothing else *)
Definition gatekeeper_cluster (template kind : string)
  (constraints : list Resource) : Cluster :=
  {| dyn_list := fun api_version k _ =>
       if k =? "ConstraintTemplate" then
         Ok [sample_resource template None None None]
       else if (api_version =? "constraints.gatekeeper.sh/v1beta1")
               && (k =? kind) then Ok constraints
       else Raise not_found;
     dyn_get := fun _ _ _ _ => Raise not_found;
     list_namespaced_event := fun _ => Ok [];
     read_namespaced_pod_log := fun _ _ _ _ => Ok EmptyString |}.

(** A cluster with the template unique-labels, whose constraint has two
    violations, and no policy reports *)
Definition two_violations_cluster : Cluster :=
  gatekeeper_cluster "unique-labels" "UniqueLabels" [violated_constraint].

(** A cluster where the App API is missing and one ClusterApp is ready *)
Definition ready_clusterapp : Resource :=
  sample_resource "cert-manager" None None (Some [ready_condition]).

Definition clusterapp_cluster : Cluster :=
  {| dyn_list := fun _ k _ =>
       if k =? "ClusterApp" then Ok [ready_clusterapp] else Raise not_found;
     dyn_get := fun _ _ _ _ => Raise not_found;
     list_namespaced_event := fun _ => Ok [];
     read_namespaced_pod_log := fun _ _ _ _ => Ok EmptyString |}.

(** A Machine that carries no labels *)
Definition unlabelled_machine : Resource :=
  {| metadata := {| m_name := "worker-0"; m_namespace := Some "default";
                    m_labels := None |};
     spec := None; status := None; results := None |}.

Definition machines_cluster : Cluster :=
  {| dyn_list := fun _ _ _ => Ok [unlabelled_machine];
     dyn_get := fun _ _ _ _ => Raise not_found;
     list_namespaced_event := fun _ => Ok [];
     read_namespaced_pod_log := fun _ _ _ _ => Ok EmptyString |}.

Definition pod_ref (name : string) : ObjectRef :=
  {| ref_kind := Some "Pod"; ref_name := Some name |}.

(** A cluster whose second failing result of the first cluster-wide report
    names an empty list of resources *)
Definition kyverno_cluster : Cluster :=
  {| dyn_list := fun _ k _ =>
       if k =? "ClusterPolicyReport" then
         Ok [policy_report [failing_result "p1" (Some [pod_ref "a"]);
                            failing_result "p2" (Some []);
                            failing_result "p3" (Some [pod_ref "c"])];
             policy_report [failing_result "p4" (Some [pod_ref "d"])]]
       else if k =? "PolicyReport" then
         Ok [policy_report [failing_result "p5" None]]
       else Raise not_found;
     dyn_get := fun _ _ _ _ => Raise not_found;
     list_namespaced_event := fun _ => Ok [];
     read_namespaced_pod_log := fun _ _ _ _ => Ok EmptyString |}.

Definition sample_context (name : string) : KubeContext :=
  {| kc_name := Some name;
     kc_context := Some {| cb_cluster := Some (name ++ "-cluster");
                           cb_user := Some "admin";
                           cb_namespace := None |} |}.

(** A suspended Kustomization whose condition carries neither [type] nor
    [status] *)
Definition keyless_condition : Condition :=
  {| c_type := None; c_status := None; c_reason := None; c_message := None;
     c_lastTransitionTime := None |}.

Definition suspended_keyless : Resource :=
  sample_resource "apps" (Some "flux-system") (Some true)
    (Some [keyless_condition; ready_condition]).

(** An event that carries its instant as [event_time] only *)
Definition event_timed (instant : Z) (name : string) : Event :=
  {| last_timestamp := None; event_time := Some instant;
     involved_kind := Some "Pod"; involved_name := Some name;
     ev_reason := Some "Pulled"; ev_message := Some "Image pulled";
     ev_type := Some "Normal" |}.

(** A result of a policy report whose outcome is [pass] *)
Definition passing_result (policy_ : string) : ReportResult :=
  {| rr_result := Some "pass"; rr_policy := Some policy_;
     rr_resources := Some [pod_ref "b"]; rr_message := None |}.

(** A cluster with a failing and a passing result in a cluster-wide report
    and a failing result in a namespaced one *)
Definition kyverno_reports_cluster : Cluster :=
  {| dyn_list := fun _ k _ =>
       if k =? "ClusterPolicyReport" then
         Ok [policy_report [failing_result "p1" (Some [pod_ref "a"]);
                            passing_result "p2"]]
       else if k =? "PolicyReport" then
         Ok [policy_report [failing_result "p3" None]]
       else Raise not_found;
     dyn_get := fun _ _ _ _ => Raise not_found;
     list_namespaced_event := fun _ => Ok [];
     read_namespaced_pod_log := fun _ _ _ _ => Ok EmptyString |}.

(** Two Kustomizations, one ready and one failing *)
Definition two_kustomizations_cluster : Cluster :=
  {| dyn_list := fun _ _ _ =>
       Ok [sample_resource "infra" (Some "flux-system") None
             (Some [ready_condition]);
           failing_kustomization "BuildFailed"];
     dyn_get := fun _ _ _ _ => Raise not_found;
     list_namespaced_event := fun _ => Ok [];
     read_namespaced_pod_log := fun _ _ _ _ => Ok EmptyString |}.

(** * Properties *)

(** ** Conditions and the derived status *)

Lemma opt_eqb_eq (o : option string) (s : string) :
  Py.opt_eqb o s = true <-> o = Some s.
Proof.
  destruct o as [t|]; simpl.
  - rewrite String.eqb_eq. split; congruence.
  - split; discriminate.
Qed.

Lemma is_ready_trueb_spec (c : Condition) :
  is_ready_trueb c = true <-> is_ready_true c.
Proof.
  unfold is_ready_trueb, is_ready_true.
  rewrite andb_true_iff, !opt_eqb_eq. reflexivity.
Qed.

Lemma existsb_ready (l : list Condition) :
  existsb is_ready_trueb l = true <-> Exists is_ready_true l.
Proof.
  rewrite existsb_exists, Exists_exists.
  split; intros [c [Hin Hc]]; exists c; split; auto;
    now apply is_ready_trueb_spec.
Qed.

Lemma suspendedb_spec (k : Resource) : suspendedb k = true <-> suspended k.
Proof.
  unfold suspendedb, suspended. destruct (spec k) as [s|]; simpl.
  - split.
    + destruct (suspend s) as [[|]|] eqn:E; simpl; try discriminate.
      intros _. now exists s.
    + intros [s' [Hs Hb]]. injection Hs as <-. now rewrite Hb.
  - split; [discriminate|]. intros [s' [Hs _]]. discriminate.
Qed.

Lemma py_any_ready_true (l : list Condition) :
  py_any ready_true l = Ok (existsb is_ready_trueb l).
Proof.
  induction l as [|c l IH]; cbn [py_any existsb]; [reflexivity|].
  unfold ready_true at 1. cbn [bind]. fold (is_ready_trueb c).
  destruct (is_ready_trueb c); [reflexivity|exact IH].
Qed.

Lemma py_any_ready (l : list Condition) :
  forallb well_formed l = true ->
  py_any ready_true l = Ok (existsb is_ready_trueb l).
Proof. intros _. apply py_any_ready_true. Qed.

Lemma derived_status_is (k : Resource) :
  derived_status k =
  Ok (if suspendedb k then "Suspended"
      else if existsb is_ready_trueb (conditions_of k) then "Ready"
      else "Failed").
Proof.
  unfold derived_status. rewrite py_any_ready_true. reflexivity.
Qed.

(** C1: for every Kustomization or HelmRelease the status is decided in this
    order: Suspended when [spec.suspend] is true, whatever the conditions
    hold (also a condition without its keys); otherwise Ready when some
    condition has type Ready and status True; otherwise Failed, which is
    also the status when there is no condition (an absent or empty list). *)
Theorem derived_status_order (k : Resource) :
  (suspended k -> derived_status k = Ok "Suspended") /\
  (~ suspended k -> Exists is_ready_true (conditions_of k) ->
   derived_status k = Ok "Ready") /\
  (~ suspended k -> ~ Exists is_ready_true (conditions_of k) ->
   derived_status k = Ok "Failed") /\
  (~ suspended k -> conditions_of k = [] -> derived_status k = Ok "Failed").
Proof.
  rewrite (derived_status_is k).
  repeat split.
  - intros Hs. apply suspendedb_spec in Hs. now rewrite Hs.
  - intros Hs Hr. rewrite <- suspendedb_spec in Hs.
    apply existsb_ready in Hr.
    destruct (suspendedb k); [now elim Hs|]. now rewrite Hr.
  - intros Hs Hr. rewrite <- suspendedb_spec in Hs.
    rewrite <- existsb_ready in Hr.
    destruct (suspendedb k); [now elim Hs|].
    destruct (existsb is_ready_trueb (conditions_of k)); [now elim Hr|].
    reflexivity.
  - intros Hs He. rewrite <- suspendedb_spec in Hs.
    destruct (suspendedb k); [now elim Hs|]. now rewrite He.
Qed.

Lemma derived_status_order_witness :
  suspended suspended_keyless /\
  forallb well_formed (conditions_of suspended_keyless) = false /\
  derived_status suspended_keyless = Ok "Suspended".
Proof.
  assert (Hs : suspended suspended_keyless)
    by (eexists; split; reflexivity).
  split; [exact Hs|]. split; [reflexivity|].
  exact (proj1 (derived_status_order suspended_keyless) Hs).
Defined.

(** ** list_gitrepositories *)

Lemma gitrepository_row_is (gr : Resource) :
  gitrepository_row gr =
  Ok (Some (gitrepository_line gr
              (if existsb is_ready_trueb (conditions_of gr) then "Ready"
               else "Failed"))).
Proof.
  unfold gitrepository_row. rewrite py_any_ready_true. reflexivity.
Qed.

(** C9: every GitRepository is reported Ready when some condition has type
    Ready and status True and Failed otherwise, never Suspended;
    [spec.suspend] is not read, so the row is the same whatever it holds and
    a suspended repository with such a condition is reported Ready. *)
Theorem gitrepository_status_ignores_suspend (gr : Resource) :
  (exists st,
      (st = "Ready" \/ st = "Failed") /\ st <> "Suspended" /\
      (st = "Ready" <-> Exists is_ready_true (conditions_of gr)) /\
      gitrepository_row gr = Ok (Some (gitrepository_line gr st))) /\
  (forall b, gitrepository_row (with_suspend b gr) = gitrepository_row gr) /\
  (suspended gr -> Exists is_ready_true (conditions_of gr) ->
   gitrepository_row gr = Ok (Some (gitrepository_line gr "Ready"))).
Proof.
  rewrite (gitrepository_row_is gr).
  pose proof (existsb_ready (conditions_of gr)) as Hr.
  repeat split.
  - destruct (existsb is_ready_trueb (conditions_of gr)) eqn:E.
    + exists "Ready". repeat split; auto; try discriminate.
      intros _. now apply Hr.
    + exists "Failed". repeat split; auto; try discriminate.
      intros Hex. apply Hr in Hex. discriminate.
  - intros b. rewrite <- (gitrepository_row_is gr).
    unfold gitrepository_row, with_suspend, conditions_of. simpl.
    destruct (spec gr); reflexivity.
  - intros _ Hex. apply Hr in Hex. now rewrite Hex.
Qed.

Lemma gitrepository_status_ignores_suspend_witness :
  suspended suspended_ready /\
  gitrepository_row suspended_ready =
  Ok (Some "| apps | flux-system | Ready | N/A |").
Proof.
  assert (Hs : suspended suspended_ready)
    by (eexists; split; reflexivity).
  split; [exact Hs|].
  apply (gitrepository_status_ignores_suspend suspended_ready); [exact Hs|].
  constructor. split; reflexivity.
Defined.

(** ** [sorted(..., reverse=True)] *)

Section SortedReverse.

Context {A : Type} (key : A -> Key).

Lemma key_lt_same (a b : Key) :
  is_stamp a = is_stamp b -> key_lt a b = Ok (key_ltb a b).
Proof. destruct a, b; cbn; intros H; try discriminate H; reflexivity. Qed.

Lemma key_lt_other (a b : Key) :
  is_stamp a <> is_stamp b -> exists msg, key_lt a b = Raise (TypeError msg).
Proof.
  destruct a, b; cbn; intros H; try (now elim H); eexists; reflexivity.
Qed.

Lemma all_kind_In (stamped : bool) (l : list A) (x : A) :
  all_kind key stamped l = true -> In x l -> is_stamp (key x) = stamped.
Proof.
  unfold all_kind. rewrite forallb_forall. intros H Hin.
  now apply Bool.eqb_prop, H.
Qed.

Lemma all_kind_perm (stamped : bool) (l l' : list A) :
  Permutation l l' ->
  all_kind key stamped l = true -> all_kind key stamped l' = true.
Proof.
  unfold all_kind. rewrite !forallb_forall. intros Hp H x Hin.
  apply H. now apply (Permutation_in _ (Permutation_sym Hp)).
Qed.

Lemma exists_stamp (l : list A) :
  existsb (fun x => is_stamp (key x)) l = negb (all_kind key false l).
Proof.
  unfold all_kind. induction l as [|x l IH]; cbn [existsb forallb];
    [reflexivity|].
  rewrite IH. now destruct (is_stamp (key x)).
Qed.

Lemma exists_unstamped (l : list A) :
  existsb (fun x => negb (is_stamp (key x))) l = negb (all_kind key true l).
Proof.
  unfold all_kind. induction l as [|x l IH]; cbn [existsb forallb];
    [reflexivity|].
  rewrite IH. now destruct (is_stamp (key x)).
Qed.

Lemma mixed_keys_false (l : list A) :
  mixed_keys key l = false <->
  all_kind key true l = true \/ all_kind key false l = true.
Proof.
  unfold mixed_keys. rewrite exists_stamp, exists_unstamped.
  destruct (all_kind key true l), (all_kind key false l); cbn;
    intuition discriminate.
Qed.

Lemma insert_by_perm (x : A) (l : list A) :
  Permutation (insert_by key x l) (x :: l).
Proof.
  induction l as [|y l IH]; cbn [insert_by]; [apply Permutation_refl|].
  destruct (key_ltb (key x) (key y)).
  - rewrite IH. apply perm_swap.
  - apply Permutation_refl.
Qed.

Lemma sort_by_perm (l : list A) : Permutation (sort_by key l) l.
Proof.
  induction l as [|x l IH]; cbn [sort_by fold_right]; [constructor|].
  fold (sort_by key l). rewrite insert_by_perm. now constructor.
Qed.

Lemma insert_desc_same (stamped : bool) (x : A) (l : list A) :
  is_stamp (key x) = stamped ->
  all_kind key stamped l = true ->
  insert_desc key x l = Ok (insert_by key x l).
Proof.
  intros Hx. induction l as [|y l IH]; cbn [insert_desc insert_by];
    [reflexivity|].
  unfold all_kind. cbn [forallb]. intros H.
  apply andb_true_iff in H as [Hy Hl]. apply Bool.eqb_prop in Hy.
  rewrite (key_lt_same (key x) (key y)) by congruence. cbn [bind].
  destruct (key_ltb (key x) (key y)); [|reflexivity].
  now rewrite (IH Hl).
Qed.

(** The sort raises exactly on a list that holds keys of both kinds, and is
    the stable sort by decreasing key otherwise. *)
Lemma sorted_reverse_result (l : list A) :
  (mixed_keys key l = true ->
   exists msg, sorted_reverse key l = Raise (TypeError msg)) /\
  (mixed_keys key l = false -> sorted_reverse key l = Ok (sort_by key l)).
Proof.
  induction l as [|x l [IHm IHs]]; [split; [discriminate|reflexivity]|].
  cbn [sorted_reverse]. destruct (mixed_keys key l) eqn:Hl.
  - destruct (IHm eq_refl) as [msg Hmsg]. rewrite Hmsg. cbn [bind]. split.
    + intros _. now exists msg.
    + intros H. exfalso. unfold mixed_keys in *. cbn [existsb] in H.
      apply andb_true_iff in Hl as [H1 H2]. rewrite H1, H2 in H.
      now rewrite !orb_true_r in H.
  - rewrite (IHs eq_refl). cbn [bind].
    fold (sort_by key l).
    apply mixed_keys_false in Hl.
    assert (Hcases :
      all_kind key (is_stamp (key x)) l = true \/
      exists y l', sort_by key l = y :: l' /\
                   is_stamp (key x) <> is_stamp (key y)).
    { destruct l as [|z l0]; [now left|].
      destruct Hl as [Hl|Hl].
      - destruct (is_stamp (key x)) eqn:Ex; [now left|]. right.
        destruct (sort_by key (z :: l0)) as [|y l'] eqn:Es.
        + pose proof (sort_by_perm (z :: l0)) as Hp. rewrite Es in Hp.
          now apply Permutation_nil in Hp.
        + exists y, l'. split; [reflexivity|].
          assert (Hin : In y (z :: l0)).
          { apply (Permutation_in _ (sort_by_perm (z :: l0))).
            rewrite Es. now left. }
          rewrite (all_kind_In true _ y Hl Hin). discriminate.
      - destruct (is_stamp (key x)) eqn:Ex; [|now left]. right.
        destruct (sort_by key (z :: l0)) as [|y l'] eqn:Es.
        + pose proof (sort_by_perm (z :: l0)) as Hp. rewrite Es in Hp.
          now apply Permutation_nil in Hp.
        + exists y, l'. split; [reflexivity|].
          assert (Hin : In y (z :: l0)).
          { apply (Permutation_in _ (sort_by_perm (z :: l0))).
            rewrite Es. now left. }
          rewrite (all_kind_In false _ y Hl Hin). discriminate. }
    destruct Hcases as [Hsame|[y [l' [Es Hne]]]].
    + assert (Hnot : mixed_keys key (x :: l) = false).
      { apply mixed_keys_false. unfold all_kind in *. cbn [forallb].
        destruct (is_stamp (key x)); [left|right]; now rewrite Hsame. }
      rewrite Hnot. split; [discriminate|]. intros _.
      apply (insert_desc_same (is_stamp (key x))); [reflexivity|].
      exact (all_kind_perm _ _ _ (Permutation_sym (sort_by_perm l)) Hsame).
    + assert (Hin : In y l).
      { apply (Permutation_in _ (sort_by_perm l)). rewrite Es. now left. }
      assert (Hmix : mixed_keys key (x :: l) = true).
      { destruct (mixed_keys key (x :: l)) eqn:E; [reflexivity|].
        apply mixed_keys_false in E. exfalso. apply Hne.
        destruct E as [E|E].
        - rewrite (all_kind_In true (x :: l) x E (or_introl eq_refl)).
          now rewrite (all_kind_In true (x :: l) y E (or_intror Hin)).
        - rewrite (all_kind_In false (x :: l) x E (or_introl eq_refl)).
          now rewrite (all_kind_In false (x :: l) y E (or_intror Hin)). }
      rewrite Hmix. split; [|discriminate]. intros _.
      rewrite Es. cbn [insert_desc].
      destruct (key_lt_other (key x) (key y) Hne) as [msg Hmsg].
      rewrite Hmsg. now exists msg.
Qed.

Lemma sorted_reverse_ok (l sorted : list A) :
  sorted_reverse key l = Ok sorted ->
  mixed_keys key l = false /\ sorted = sort_by key l.
Proof.
  intros H. destruct (sorted_reverse_result l) as [Hm Hs].
  destruct (mixed_keys key l).
  - destruct (Hm eq_refl) as [msg Hmsg]. congruence.
  - split; [reflexivity|]. rewrite (Hs eq_refl) in H. congruence.
Qed.

Lemma key_leb_ltb (a b : Key) :
  is_stamp a = is_stamp b -> key_leb a b = negb (key_ltb b a).
Proof.
  destruct a, b; cbn; intros H; try discriminate H; [|reflexivity].
  apply Bool.eq_iff_eq_true. rewrite negb_true_iff, Z.leb_le, Z.ltb_ge.
  reflexivity.
Qed.

Lemma key_leb_trans (a b c : Key) :
  key_leb a b = true -> key_leb b c = true -> key_leb a c = true.
Proof.
  destruct a, b, c; cbn; try discriminate; auto.
  rewrite !Z.leb_le. lia.
Qed.

Lemma key_leb_kind (a b : Key) : key_leb a b = true -> is_stamp a = is_stamp b.
Proof. destruct a, b; cbn; try discriminate; reflexivity. Qed.

Lemma insert_by_sorted (stamped : bool) (x : A) (l : list A) :
  is_stamp (key x) = stamped ->
  all_kind key stamped l = true ->
  StronglySorted (key_ge key) l ->
  StronglySorted (key_ge key) (insert_by key x l).
Proof.
  intros Hx. induction l as [|y l IH]; cbn [insert_by]; intros Hk Hs.
  - repeat constructor.
  - unfold all_kind in Hk. cbn [forallb] in Hk.
    apply andb_true_iff in Hk as [Hy Hk]. apply Bool.eqb_prop in Hy.
    inversion Hs as [|? ? Hl Hall]; subst.
    assert (Hkind : is_stamp (key y) = is_stamp (key x)) by congruence.
    destruct (key_ltb (key x) (key y)) eqn:E.
    + constructor; [now apply IH|].
      apply (Permutation_Forall (Permutation_sym (insert_by_perm x l))).
      constructor; [|assumption].
      unfold key_ge. rewrite key_leb_ltb by congruence.
      destruct (key x), (key y); cbn in *; try discriminate.
      apply negb_true_iff, Z.ltb_ge. apply Z.ltb_lt in E. lia.
    + assert (Hxy : key_ge key x y).
      { unfold key_ge. rewrite key_leb_ltb by congruence. now rewrite E. }
      constructor; [assumption|]. constructor; [assumption|].
      eapply Forall_impl; [|exact Hall].
      intros z Hz. unfold key_ge in *. exact (key_leb_trans _ _ _ Hz Hxy).
Qed.

Lemma sort_by_sorted (stamped : bool) (l : list A) :
  all_kind key stamped l = true ->
  StronglySorted (key_ge key) (sort_by key l).
Proof.
  induction l as [|x l IH]; cbn [sort_by fold_right]; [constructor|].
  fold (sort_by key l). unfold all_kind. cbn [forallb]. intros H.
  apply andb_true_iff in H as [Hx Hl]. apply Bool.eqb_prop in Hx.
  apply (insert_by_sorted stamped); [assumption| |now apply IH].
  exact (all_kind_perm _ _ _ (Permutation_sym (sort_by_perm l)) Hl).
Qed.

(** Stability: the elements of one key come out in the order they went in *)
Lemma insert_by_stable (k : Key) (x : A) (l : list A) :
  filter (fun e => key_eqb (key e) k) (insert_by key x l) =
  filter (fun e => key_eqb (key e) k) (x :: l).
Proof.
  induction l as [|y l IH]; cbn [insert_by]; [reflexivity|].
  destruct (key_ltb (key x) (key y)) eqn:E; [|reflexivity].
  cbn [filter] in *. rewrite IH.
  destruct (key_eqb (key x) k) eqn:Ex; [|reflexivity].
  destruct (key_eqb (key y) k) eqn:Ey; [|reflexivity].
  exfalso. destruct (key x), (key y), k; cbn in *; try discriminate.
  apply Z.eqb_eq in Ex, Ey. apply Z.ltb_lt in E. lia.
Qed.

Lemma sort_by_stable (k : Key) (l : list A) :
  filter (fun e => key_eqb (key e) k) (sort_by key l) =
  filter (fun e => key_eqb (key e) k) l.
Proof.
  induction l as [|x l IH]; cbn [sort_by fold_right]; [reflexivity|].
  fold (sort_by key l). rewrite insert_by_stable. cbn [filter].
  now rewrite IH.
Qed.

Lemma insert_by_head (x : A) (l : list A) :
  Forall (key_ge key x) l -> insert_by key x l = x :: l.
Proof.
  destruct l as [|y l]; [reflexivity|]. intros H.
  inversion H as [|? ? Hxy _]; subst. cbn [insert_by].
  unfold key_ge in Hxy.
  rewrite key_leb_ltb in Hxy by now apply key_leb_kind.
  apply negb_true_iff in Hxy. now rewrite Hxy.
Qed.

Lemma sort_by_fixed (l : list A) :
  StronglySorted (key_ge key) l -> sort_by key l = l.
Proof.
  induction 1 as [|x l Hl IH Hx]; cbn [sort_by fold_right]; [reflexivity|].
  fold (sort_by key l). rewrite IH. now apply insert_by_head.
Qed.

Lemma sorted_kind (l : list A) :
  StronglySorted (key_ge key) l -> mixed_keys key l = false.
Proof.
  intros H. apply mixed_keys_false.
  destruct l as [|x l]; [now left|].
  inversion H as [|? ? _ Hall]; subst.
  assert (Hk : all_kind key (is_stamp (key x)) (x :: l) = true).
  { unfold all_kind. cbn [forallb]. rewrite Bool.eqb_reflx. cbn [andb].
    apply forallb_forall. intros y Hy. rewrite Forall_forall in Hall.
    apply Bool.eqb_true_iff. now apply key_leb_kind, Hall. }
  destruct (is_stamp (key x)); [now left|now right].
Qed.

End SortedReverse.

(** ** get_events *)

Lemma report_eq (sentence title header : string) (rows : list string) :
  (if is_empty rows then sentence else table title header rows) =
  report sentence title header rows.
Proof.
  destruct rows; reflexivity.
Qed.

Lemma other_resource_spec (resource_name : option string) (e : Event) :
  other_resource resource_name e = negb (about_resource resource_name e).
Proof.
  unfold other_resource, about_resource, Py.truthy.
  destruct resource_name as [n|]; [|reflexivity].
  destruct (n =? EmptyString); cbn [negb andb orb]; [reflexivity|].
  reflexivity.
Qed.

Lemma other_type_spec (event_type : string) (e : Event) :
  other_type event_type e = negb (of_type event_type e).
Proof.
  unfold other_type, of_type.
  now destruct (event_type =? "all"), (Py.opt_eqb (ev_type e) event_type).
Qed.

(** The loop keeps the events that pass the filters, in order, until
    [max_count] rows are there. *)
Lemma events_loop_eq (resource_name : option string) (event_type : string)
  (max_count : Z) (events : list Event) :
  forall (rows : list string) (count : Z),
    events_loop resource_name event_type max_count events rows count =
    (rows ++ map event_row
       (firstn (Z.to_nat (max_count - count))
          (filter (event_kept resource_name event_type) events)))%list.
Proof.
  induction events as [|e rest IH]; intros rows count;
    cbn [events_loop filter].
  - now rewrite firstn_nil, app_nil_r.
  - destruct (max_count <=? count)%Z eqn:Hc.
    + apply Z.leb_le in Hc.
      replace (Z.to_nat (max_count - count)) with 0%nat by lia.
      cbn [firstn map]. now rewrite app_nil_r.
    + apply Z.leb_gt in Hc. unfold event_kept at 1.
      rewrite other_resource_spec, other_type_spec.
      destruct (about_resource resource_name e); cbn [negb andb];
        [|apply IH].
      destruct (of_type event_type e); cbn [negb]; [|apply IH].
      rewrite IH.
      replace (Z.to_nat (max_count - count))
        with (S (Z.to_nat (max_count - (count + 1)))) by lia.
      cbn [firstn map]. now rewrite <- app_assoc.
Qed.

Lemma get_events_eq (k8s : Cluster) (namespace : string)
  (resource_name : option string) (event_type limit : string)
  (items sorted_events : list Event) (max_count : Z) :
  list_namespaced_event k8s namespace = Ok items ->
  sorted_reverse event_key items = Ok sorted_events ->
  Py.int limit = Ok max_count ->
  get_events k8s namespace resource_name event_type limit =
  Ok (report ("No events found in namespace " ++ namespace)
        ("## Events in " ++ namespace) events_header
        (map event_row
           (firstn (Z.to_nat max_count)
              (filter (event_kept resource_name event_type)
                 sorted_events)))).
Proof.
  intros Hitems Hsorted Hlimit.
  unfold get_events. rewrite Hitems, Hsorted. cbn [bind].
  rewrite Hlimit. cbn [bind].
  rewrite events_loop_eq, Z.sub_0_r. cbn [app].
  rewrite <- report_eq.
  now destruct (map event_row _).
Qed.

(** A list of events with keys of both kinds makes [get_events] raise,
    whatever the filters and the limit. *)
Lemma get_events_mixed (k8s : Cluster) (namespace : string)
  (resource_name : option string) (event_type limit : string)
  (items : list Event) :
  list_namespaced_event k8s namespace = Ok items ->
  mixed_keys event_key items = true ->
  exists msg,
    get_events k8s namespace resource_name event_type limit
    = Raise (TypeError msg).
Proof.
  intros Hitems Hmixed.
  destruct (proj1 (sorted_reverse_result event_key items) Hmixed)
    as [msg Hmsg].
  exists msg. unfold get_events. now rewrite Hitems, Hmsg.
Qed.

Lemma sorted_reverse_three (e1 e2 e3 : Event) (t1 t2 t3 : Z) :
  event_key e1 = Stamp t1 -> event_key e2 = Stamp t2 ->
  event_key e3 = Stamp t3 ->
  (t1 < t2 < t3)%Z ->
  sorted_reverse event_key [e3; e1; e2] = Ok [e3; e2; e1].
Proof.
  intros H1 H2 H3 Hlt. cbn [sorted_reverse insert_desc bind].
  rewrite H1, H2. cbn [key_lt bind].
  replace (t1 <? t2)%Z with true by (symmetry; apply Z.ltb_lt; lia).
  cbn [insert_desc bind]. rewrite H3, H2. cbn [key_lt bind].
  replace (t3 <? t2)%Z with false by (symmetry; apply Z.ltb_ge; lia).
  reflexivity.
Qed.

(** C6: [get_events] sorts the events served newest first, then keeps those
    that pass the name and type filters, then cuts the rows at the limit,
    when the keys of the events compare: events stamped T3, T1, T2 with
    T1 < T2 < T3 come out as T3, T2, T1, and as T3, T2 with the limit 2.  But
    an event with no timestamp is not sorted as the earliest: its key is the
    fallback string, which does not compare with a [datetime], so when such
    an event is served beside a stamped one the sort raises and [get_events]
    leaves with a [TypeError], whatever the filters and the limit. *)
Theorem get_events_unstamped_raises (k8s : Cluster) (namespace : string)
  (resource_name : option string) (event_type limit : string)
  (items : list Event) :
  list_namespaced_event k8s namespace = Ok items ->
  (mixed_keys event_key items = true ->
   exists msg,
     get_events k8s namespace resource_name event_type limit
     = Raise (TypeError msg)) /\
  (mixed_keys event_key items = false ->
   exists sorted_events,
     Permutation sorted_events items /\
     StronglySorted (key_ge event_key) sorted_events /\
     forall max_count,
       Py.int limit = Ok max_count ->
       get_events k8s namespace resource_name event_type limit =
       Ok (report ("No events found in namespace " ++ namespace)
             ("## Events in " ++ namespace) events_header
             (map event_row
                (firstn (Z.to_nat max_count)
                   (filter (event_kept resource_name event_type)
                      sorted_events))))) /\
  (forall e1 e2 e3 t1 t2 t3,
      event_key e1 = Stamp t1 -> event_key e2 = Stamp t2 ->
      event_key e3 = Stamp t3 ->
      (t1 < t2 < t3)%Z ->
      sorted_reverse event_key [e3; e1; e2] = Ok [e3; e2; e1] /\
      firstn 2 [e3; e2; e1] = [e3; e2]) /\
  (exists msg,
      get_events mixed_events_cluster "default" None "all" "20"
      = Raise (TypeError msg)) /\
  get_events events_cluster "default" None "all" "20" =
  Ok ("## Events in default" ++ nl ++ nl ++ events_header ++ nl
      ++ "| ℹ️ | Pod/c | Pulled | Image pulled |" ++ nl
      ++ "| ℹ️ | Pod/b | Pulled | Image pulled |" ++ nl
      ++ "| ℹ️ | Pod/a | Pulled | Image pulled |") /\
  get_events events_cluster "default" None "all" "2" =
  Ok ("## Events in default" ++ nl ++ nl ++ events_header ++ nl
      ++ "| ℹ️ | Pod/c | Pulled | Image pulled |" ++ nl
      ++ "| ℹ️ | Pod/b | Pulled | Image pulled |") /\
  get_events events_cluster "default" (Some "b") "all" "20" =
  Ok ("## Events in default" ++ nl ++ nl ++ events_header ++ nl
      ++ "| ℹ️ | Pod/b | Pulled | Image pulled |") /\
  get_events events_cluster "default" None "Warning" "20" =
  Ok "No events found in namespace default".
Proof.
  intros Hitems.
  split; [intros Hkeys; now apply (get_events_mixed _ _ _ _ _ items)|].
  split.
  { intros Hkeys. exists (sort_by event_key items).
    split; [apply sort_by_perm|]. split.
    - apply mixed_keys_false in Hkeys as [H|H];
        exact (sort_by_sorted event_key _ items H).
    - intros max_count Hlimit.
      exact (get_events_eq _ _ _ _ _ _ _ _ Hitems
               (proj2 (sorted_reverse_result event_key items) Hkeys) Hlimit). }
  split.
  { intros e1 e2 e3 t1 t2 t3 H1 H2 H3 Hlt.
    split; [exact (sorted_reverse_three _ _ _ _ _ _ H1 H2 H3 Hlt)|reflexivity]. }
  split; [eexists; reflexivity|].
  repeat split; reflexivity.
Qed.

Lemma get_events_unstamped_raises_witness :
  list_namespaced_event mixed_events_cluster "default"
  = Ok [event_T1; event_unstamped] /\
  mixed_keys event_key [event_T1; event_unstamped] = true /\
  exists msg,
    get_events mixed_events_cluster "default" (Some "a") "Normal" "1"
    = Raise (TypeError msg).
Proof.
  split; [reflexivity|]. split; [reflexivity|].
  exact (proj1 (get_events_unstamped_raises mixed_events_cluster "default"
                  (Some "a") "Normal" "1" [event_T1; event_unstamped]
                  eq_refl) eq_refl).
Defined.

(** ** Strings *)

Lemma append_nil_r (s : string) : s ++ EmptyString = s.
Proof. induction s as [|c s IH]; simpl; [reflexivity|]. now rewrite IH. Qed.

Lemma append_assoc (s t u : string) : (s ++ t) ++ u = s ++ t ++ u.
Proof. induction s as [|c s IH]; simpl; [reflexivity|]. now rewrite IH. Qed.

Lemma concat_lines_app (l1 l2 : list string) :
  concat_lines (l1 ++ l2)%list = concat_lines l1 ++ concat_lines l2.
Proof.
  induction l1 as [|x l1 IH]; simpl; [reflexivity|].
  now rewrite IH, append_assoc.
Qed.

Lemma concat_lines_flat_map {A : Type} (f : A -> list string) (l : list A) :
  concat_lines (map (fun x => concat_lines (f x)) l)
  = concat_lines (flat_map f l).
Proof.
  induction l as [|x l IH]; cbn [map flat_map concat_lines fold_right];
    [reflexivity|].
  fold (concat_lines (map (fun x => concat_lines (f x)) l)).
  now rewrite concat_lines_app, IH.
Qed.

Lemma prefix_spec (sub s : string) :
  prefix sub s = true <-> exists rest, s = sub ++ rest.
Proof.
  revert s. induction sub as [|c sub IH]; intros s.
  - split; [intros _; now exists s|now destruct s].
  - destruct s as [|d s]; [split; [discriminate|intros [r Hr]; discriminate]|].
    cbn [prefix append]. destruct (ascii_dec c d) as [->|Hne].
    + rewrite IH. split; intros [r Hr]; exists r; congruence.
    + split; [discriminate|]. intros [r Hr]. congruence.
Qed.

(** [sub in s] holds exactly when [sub] occurs in [s] *)
Lemma contains_spec (sub s : string) :
  Py.contains sub s = true <-> exists before after, s = before ++ sub ++ after.
Proof.
  induction s as [|c s IH]; cbn [Py.contains].
  - rewrite orb_false_r, prefix_spec. split.
    + intros [r Hr]. exists EmptyString, r. exact Hr.
    + intros [[|b before] [after H]]; [now exists after|discriminate].
  - rewrite orb_true_iff, prefix_spec, IH. split.
    + intros [[r Hr]|[before [after H]]].
      * exists EmptyString, r. exact Hr.
      * exists (String c before), after. simpl. now rewrite H.
    + intros [[|b before] [after H]].
      * left. now exists after.
      * right. exists before, after. simpl in H. congruence.
Qed.

(** ** Reports built row by row *)

Lemma rows_appended {A : Type} (body : string -> A -> result string)
  (line : A -> string) (items : list A) :
  (forall x, In x items -> forall output, body output x = Ok (output ++ line x)) ->
  forall output,
    for_each body items output = Ok (output ++ concat_lines (map line items)).
Proof.
  induction items as [|x items IH]; intros Hbody output; cbn [for_each map].
  - cbn. now rewrite append_nil_r.
  - rewrite (Hbody x (or_introl eq_refl)). cbn [bind].
    rewrite IH by (intros y Hy; apply Hbody; now right).
    cbn [concat_lines fold_right]. now rewrite append_assoc.
Qed.

(** ** debug_reconciliation *)

Lemma debug_condition_row_is (c : Condition) (output : string) :
  debug_condition_row output c = Ok (output ++ debug_condition_line c).
Proof. reflexivity. Qed.

Lemma recommend_is (output : string) (c : Condition) :
  recommend output c = Ok (output ++ concat_lines (hints_of c)).
Proof.
  unfold recommend, hints_of. fold (is_ready_false c).
  destruct (is_ready_false c); [|now rewrite append_nil_r].
  cbn [hint_table filter fst snd].
  destruct (Py.contains "Source" _), (Py.contains "Validation" _),
    (Py.contains "Health" _); cbn [map snd concat_lines fold_right];
    now rewrite ?append_assoc, ?append_nil_r.
Qed.

Lemma recommendations_is (conds : list Condition) (output : string) :
  for_each recommend conds output
  = Ok (output ++ concat_lines (hint_lines conds)).
Proof.
  rewrite (rows_appended recommend (fun c => concat_lines (hints_of c)))
    by (intros c _ out; apply recommend_is).
  unfold hint_lines. now rewrite concat_lines_flat_map.
Qed.

Lemma recommendations_eq (conds : list Condition) :
  forallb well_formed conds = true ->
  forall output,
    for_each recommend conds output
    = Ok (output ++ concat_lines (hint_lines conds)).
Proof. intros _ output. apply recommendations_is. Qed.

Lemma debug_reconciliation_is (k8s : Cluster)
  (resource_type name namespace api_version kind : string)
  (resource : Resource) :
  api_map (Py.lower resource_type) = Some (api_version, kind) ->
  dyn_get k8s api_version kind name namespace = Ok resource ->
  debug_reconciliation k8s resource_type name namespace =
  Ok (debug_header kind name namespace
      ++ concat_lines (map debug_condition_line (conditions_of resource))
      ++ nl ++ "### Recommendations" ++ nl ++ nl
      ++ concat_lines (hint_lines (conditions_of resource))).
Proof.
  intros Hmap Hget. unfold debug_reconciliation. rewrite Hmap, Hget.
  rewrite (rows_appended debug_condition_row debug_condition_line)
    by (intros c _ out; apply debug_condition_row_is).
  cbn [bind]. rewrite recommendations_is. f_equal.
  generalize (debug_header kind name namespace)
    (concat_lines (map debug_condition_line (conditions_of resource)))
    (concat_lines (hint_lines (conditions_of resource))).
  intros a b c. rewrite <- (append_assoc a b).
  now rewrite (append_assoc (a ++ b)).
Qed.

Lemma hints_of_iff (c : Condition) (hint : string) :
  In hint (hints_of c) <->
  is_ready_false c = true /\
  exists sub, In (sub, hint) hint_table /\
              Py.contains sub (Py.get (c_reason c) EmptyString) = true.
Proof.
  unfold hints_of. destruct (is_ready_false c).
  - rewrite in_map_iff. split.
    + intros [[sub h] [Hh Hin]]. simpl in Hh. subst h.
      apply filter_In in Hin as [Hin Hc]. split; [reflexivity|].
      now exists sub.
    + intros [_ [sub [Hin Hc]]]. exists (sub, hint). split; [reflexivity|].
      apply filter_In. now split.
  - split; [intros []|intros [H _]; discriminate].
Qed.

(** C7: for a resource that is found, [debug_reconciliation] prints the head,
    the row of each condition, the heading of the recommendations and then,
    for each condition with type Ready and status False in turn, the hints
    that its reason calls for, in this order and none other: the source hint
    when the reason holds Source, the manifest-syntax hint when it holds
    Validation, the health hint when it holds Health; a condition that is not
    Ready/False adds none, and the reason ValidationFailed gives the
    manifest-syntax hint alone. *)
Theorem debug_recommendations (k8s : Cluster)
  (resource_type name namespace api_version kind : string)
  (resource : Resource) :
  api_map (Py.lower resource_type) = Some (api_version, kind) ->
  dyn_get k8s api_version kind name namespace = Ok resource ->
  debug_reconciliation k8s resource_type name namespace =
  Ok (debug_header kind name namespace
      ++ concat_lines (map debug_condition_line (conditions_of resource))
      ++ nl ++ "### Recommendations" ++ nl ++ nl
      ++ concat_lines (flat_map hints_of (conditions_of resource))) /\
  (forall c,
      hints_of c =
      if Py.opt_eqb (c_type c) "Ready" && Py.opt_eqb (c_status c) "False"
      then
        let reason := Py.get (c_reason c) EmptyString in
        ((if Py.contains "Source" reason
          then [("- Check if the source (GitRepository/HelmRepository) exists and is ready"
                 ++ nl)%string]
          else [])
         ++ (if Py.contains "Validation" reason
             then [("- Check the manifest syntax and Kubernetes API compatibility"
                    ++ nl)%string]
             else [])
         ++ (if Py.contains "Health" reason
             then [("- Check if deployed resources are healthy (pods running, etc.)"
                    ++ nl)%string]
             else []))%list
      else []) /\
  (forall c,
      c_type c = Some "Ready" -> c_status c = Some "False" ->
      c_reason c = Some "ValidationFailed" ->
      hints_of c =
      ["- Check the manifest syntax and Kubernetes API compatibility" ++ nl]).
Proof.
  intros Hmap Hget. split; [|split].
  - exact (debug_reconciliation_is _ _ _ _ _ _ _ Hmap Hget).
  - intros c. unfold hints_of, is_ready_false.
    rewrite (andb_comm (Py.opt_eqb (c_type c) "Ready")).
    destruct (Py.opt_eqb (c_status c) "False" && Py.opt_eqb (c_type c) "Ready");
      [|reflexivity].
    cbn [hint_table filter fst]. cbv zeta.
    now destruct (Py.contains "Source" _), (Py.contains "Validation" _),
      (Py.contains "Health" _).
  - intros c Ht Hs Hr. unfold hints_of, is_ready_false.
    rewrite Ht, Hs, Hr. reflexivity.
Qed.

Lemma debug_recommendations_witness :
  api_map (Py.lower "Kustomization")
  = Some ("kustomize.toolkit.fluxcd.io/v1", "Kustomization") /\
  dyn_get (failing_cluster "ValidationFailed")
    "kustomize.toolkit.fluxcd.io/v1" "Kustomization" "apps" "flux-system"
  = Ok (failing_kustomization "ValidationFailed") /\
  debug_reconciliation (failing_cluster "ValidationFailed") "Kustomization"
    "apps" "flux-system" =
  Ok ("## Debug: Kustomization/apps" ++ nl ++ nl
      ++ "**Namespace:** flux-system" ++ nl ++ nl
      ++ "### Conditions" ++ nl ++ nl
      ++ "| Type | Status | Reason | Last Transition | Message |" ++ nl
      ++ "|------|--------|--------|-----------------|---------|" ++ nl
      ++ "| Ready | False | ValidationFailed | 2024-05-01T10:00:00 | "
      ++ "kustomize build failed |" ++ nl
      ++ nl ++ "### Recommendations" ++ nl ++ nl
      ++ "- Check the manifest syntax and Kubernetes API compatibility" ++ nl).
Proof.
  split; [reflexivity|]. split; [reflexivity|].
  exact (proj1 (debug_recommendations (failing_cluster "ValidationFailed")
           "Kustomization" "apps" "flux-system"
           "kustomize.toolkit.fluxcd.io/v1" "Kustomization"
           (failing_kustomization "ValidationFailed") eq_refl eq_refl)).
Defined.

(** ** The constraint kind of a template *)

Lemma lower_not_dash (c : ascii) :
  Py.is_lower c = true ->
  Ascii.eqb c "-" = false /\ Ascii.eqb (Py.to_upper c) "-" = false /\
  Py.is_upper c = false.
Proof.
  destruct c as [[] [] [] [] [] [] [] []]; vm_compute;
    intros H; try discriminate H; repeat split.
Qed.

Lemma title_after_cased (w rest : string) :
  all_lower w = true ->
  Py.title_from true (w ++ rest) = w ++ Py.title_from true rest.
Proof.
  induction w as [|c w IH]; cbn [all_lower append]; intros H; [reflexivity|].
  apply andb_true_iff in H as [Hc Hw].
  cbn [Py.title_from]. rewrite Hc. now rewrite (IH Hw).
Qed.

Lemma title_word (w rest : string) :
  all_lower w = true ->
  Py.title_from false (w ++ rest) =
  capitalize w ++ Py.title_from (negb (w =? EmptyString)) rest.
Proof.
  destruct w as [|c w]; cbn [all_lower append capitalize]; intros H;
    [reflexivity|].
  apply andb_true_iff in H as [Hc Hw].
  cbn [Py.title_from]. rewrite Hc. now rewrite (title_after_cased w rest Hw).
Qed.

Lemma title_dash (cased : bool) (rest : string) :
  Py.title_from cased (String "-" rest) = String "-" (Py.title_from false rest).
Proof. reflexivity. Qed.

Lemma remove_dash_lower (w rest : string) :
  all_lower w = true ->
  Py.remove_char "-" (w ++ rest) = w ++ Py.remove_char "-" rest.
Proof.
  induction w as [|c w IH]; cbn [all_lower append]; intros H; [reflexivity|].
  apply andb_true_iff in H as [Hc Hw].
  cbn [Py.remove_char]. destruct (lower_not_dash c Hc) as [-> _].
  now rewrite (IH Hw).
Qed.

Lemma remove_dash_capitalize (w rest : string) :
  all_lower w = true ->
  Py.remove_char "-" (capitalize w ++ rest) =
  capitalize w ++ Py.remove_char "-" rest.
Proof.
  destruct w as [|c w]; cbn [all_lower append capitalize]; intros H;
    [reflexivity|].
  apply andb_true_iff in H as [Hc Hw].
  cbn [Py.remove_char]. destruct (lower_not_dash c Hc) as [_ [-> _]].
  now rewrite (remove_dash_lower w rest Hw).
Qed.

(** On a name made of lower-case words joined by hyphens the transform
    capitalizes each word and drops the hyphens. *)
Lemma constraint_kind_of_words (words : list string) :
  forallb all_lower words = true ->
  constraint_kind_of (join "-" words) = concat_lines (map capitalize words).
Proof.
  unfold constraint_kind_of, Py.title, join.
  induction words as [|w words IH]; [reflexivity|].
  cbn [forallb]. intros H. apply andb_true_iff in H as [Hw Hws].
  destruct words as [|w' words].
  - cbn [String.concat map concat_lines fold_right].
    rewrite <- (append_nil_r w) at 1.
    rewrite (title_word w EmptyString Hw). cbn [Py.title_from].
    now rewrite (remove_dash_capitalize w EmptyString Hw).
  - change (String.concat "-" (w :: w' :: words))
      with (w ++ String "-" (String.concat "-" (w' :: words))).
    rewrite (title_word w _ Hw), title_dash.
    rewrite (remove_dash_capitalize w _ Hw). cbn [Py.remove_char].
    change (Ascii.eqb "-" "-") with true. cbv iota.
    rewrite (IH Hws). reflexivity.
Qed.

(** C2: the transform gives UniqueLabels for unique-labels, but for
    k8s-allowed-repos it gives K8SAllowedRepos: the letter after the digit
    is upper-cased too, so the kind looked up is not K8sAllowedRepos, and the
    violations of the constraints of that kind are not found. *)
Theorem constraint_kind_after_digit :
  constraint_kind_of "unique-labels" = "UniqueLabels" /\
  constraint_kind_of "k8s-allowed-repos" = "K8SAllowedRepos" /\
  constraint_kind_of "k8s-allowed-repos" <> "K8sAllowedRepos" /\
  _check_gatekeeper_violations
    (gatekeeper_cluster "k8s-allowed-repos" "K8sAllowedRepos"
       [violated_constraint]) None = [] /\
  length (_check_gatekeeper_violations
            (gatekeeper_cluster "k8s-allowed-repos" "K8SAllowedRepos"
               [violated_constraint]) None) = 2%nat.
Proof.
  repeat split; try reflexivity. vm_compute. discriminate.
Qed.

(** ** Exceptions that leave a tool *)

(** [int] skips the white space around a number and refuses the separator
    bytes 28 to 31. *)
Lemma int_white_space :
  Py.int (" 12" ++ nl) = Ok 12%Z /\
  forall n, (28 <= n <= 31)%nat ->
            exists msg,
              Py.int (String (ascii_of_nat n) "12") = Raise (ValueError msg).
Proof.
  split; [reflexivity|]. intros n Hn.
  assert (H : n = 28%nat \/ n = 29%nat \/ n = 30%nat \/ n = 31%nat) by lia.
  destruct H as [-> | [-> | [-> | ->]]]; eexists; reflexivity.
Qed.

(** A limit that [int] refuses leaves [get_events] as the exception, once
    the events are sorted. *)
Lemma get_events_raises (k8s : Cluster) (namespace : string)
  (resource_name : option string) (event_type limit : string)
  (items : list Event) (e : exn) :
  list_namespaced_event k8s namespace = Ok items ->
  mixed_keys event_key items = false ->
  Py.int limit = Raise e ->
  get_events k8s namespace resource_name event_type limit = Raise e.
Proof.
  intros Hitems Hkeys Hlimit. unfold get_events.
  rewrite Hitems, (proj2 (sorted_reverse_result event_key items) Hkeys).
  cbn [bind]. now rewrite Hlimit.
Qed.

(** [get_pod_logs] parses its number inside the [try] and always returns. *)
Lemma get_pod_logs_returns (k8s : Cluster) (pod_name namespace : string)
  (container : option string) (tail_lines : string) :
  exists text,
    get_pod_logs k8s pod_name namespace container tail_lines = Ok text.
Proof.
  unfold get_pod_logs.
  destruct (n <- Py.int tail_lines ;;
            read_namespaced_pod_log k8s pod_name namespace container n);
    eauto.
Qed.

(** C3: with the limit [abc] and events served, [get_events] raises the
    [ValueError] of [int] and returns no error text, where [get_pod_logs]
    returns the error text for the same number; a Machine without labels
    makes [list_machines] raise too. *)
Theorem get_events_bad_limit_raises :
  get_events events_cluster "default" None "all" "abc"
  = Raise (ValueError "invalid literal for int() with base 10: 'abc'") /\
  get_pod_logs events_cluster "web-0" "default" None "abc"
  = Ok "Error getting logs: invalid literal for int() with base 10: 'abc'" /\
  list_machines machines_cluster None None
  = Raise (AttributeError "'NoneType' object has no attribute 'get'").
Proof. repeat split; reflexivity. Qed.

(** ** get_app_deployments *)

Lemma app_entry_ready (type_ : string) (app_name : option string)
  (results_ : list AppResult) (app : Resource) :
  app_selected app_name app = true ->
  forallb well_formed (conditions_of app) = true ->
  app_entry type_ app_name results_ app =
  Ok (results_ ++
      [{| app_type := type_; app_name_ := m_name (metadata app);
          app_namespace := m_namespace (metadata app);
          app_status := if existsb is_ready_trueb (conditions_of app)
                        then "Ready" else "Not Ready" |}])%list.
Proof.
  unfold app_selected, app_entry. intros Hsel Hwf.
  destruct (Py.truthy_opt app_name); simpl in Hsel.
  - rewrite Hsel. cbn [negb andb]. now rewrite (py_any_ready _ Hwf).
  - cbn [andb]. now rewrite (py_any_ready _ Hwf).
Qed.



(** ** check_policy_violations *)







Lemma check_policy_violations_eq (k8s : Cluster) (namespace : option string)
  (policy_engine : string) :
  check_policy_violations k8s namespace policy_engine =
  match policy_violations k8s namespace policy_engine with
  | [] => no_violations_report policy_engine
  | (_ :: _) as violations_ => violations_report policy_engine violations_
  end.
Proof.
  unfold check_policy_violations.
  now destruct (policy_violations k8s namespace policy_engine).
Qed.



(** C10: for an engine name other than gatekeeper, kyverno and both, no
    engine is consulted, whatever the cluster holds: the list of violations
    is empty and the report is the one for no violation, with the name as
    it was given. *)
Theorem unknown_engine_checks_nothing (k8s : Cluster)
  (namespace : option string) (policy_engine : string) :
  in_list policy_engine ["gatekeeper"; "kyverno"; "both"] = false ->
  policy_violations k8s namespace policy_engine = [] /\
  check_policy_violations k8s namespace policy_engine =
  "## Policy Violations" ++ nl ++ nl
  ++ "**Engine(s) checked:** " ++ policy_engine ++ nl
  ++ "**Result:** ✅ No violations found" ++ nl.
Proof.
  unfold in_list. cbn [existsb]. rewrite !orb_false_iff.
  intros [Hg [Hk [Hb _]]].
  assert (Hnil : policy_violations k8s namespace policy_engine = []).
  { unfold policy_violations, in_list. cbn [existsb].
    now rewrite Hg, Hk, Hb. }
  split; [exact Hnil|].
  now rewrite check_policy_violations_eq, Hnil.
Qed.

Lemma unknown_engine_checks_nothing_witness :
  in_list "Gatekeeper" ["gatekeeper"; "kyverno"; "both"] = false /\
  length (_check_gatekeeper_violations two_violations_cluster None) = 2%nat /\
  check_policy_violations two_violations_cluster None "Gatekeeper" =
  no_violations_report "Gatekeeper".
Proof.
  split; [reflexivity|]. split; [reflexivity|].
  apply (unknown_engine_checks_nothing two_violations_cluster None
           "Gatekeeper"); reflexivity.
Defined.

(** ** The listings *)

Lemma append_rows_eq {A : Type} (row : A -> result (option string))
  (line : A -> option string) (items : list A) :
  (forall x, In x items -> row x = Ok (line x)) ->
  forall rows,
    for_each (append_row row) items rows = Ok (rows ++ rows_of line items)%list.
Proof.
  induction items as [|x items IH]; intros Hrow rows; cbn [for_each].
  - unfold rows_of. simpl. now rewrite app_nil_r.
  - unfold append_row at 1. rewrite (Hrow x (or_introl eq_refl)).
    cbn [bind]. rewrite IH by (intros y Hy; apply Hrow; now right).
    unfold rows_of. cbn [flat_map].
    destruct (line x); cbn [app]; [now rewrite <- app_assoc|reflexivity].
Qed.

Lemma rows_of_filter {A : Type} (kept : A -> bool) (line : A -> string)
  (items : list A) :
  rows_of (fun x => if kept x then Some (line x) else None) items =
  map line (filter kept items).
Proof.
  unfold rows_of. induction items as [|x items IH]; cbn [flat_map filter];
    [reflexivity|].
  destruct (kept x); cbn [app map]; now rewrite IH.
Qed.

(** A loop that appends the row of every item its filter keeps *)
Lemma listing_rows {A : Type} (row : A -> result (option string))
  (kept : A -> bool) (line : A -> string) (items : list A) :
  (forall x, In x items ->
             row x = Ok (if kept x then Some (line x) else None)) ->
  for_each (append_row row) items [] = Ok (map line (filter kept items)).
Proof.
  intros Hrow. rewrite (append_rows_eq row _ items Hrow).
  now rewrite rows_of_filter.
Qed.

Lemma kustomization_row_is (status_filter : string) (k : Resource) :
  kustomization_row status_filter k =
  Ok (if status_kept status_filter k then Some (kustomization_line k)
      else None).
Proof.
  unfold kustomization_row, status_kept.
  rewrite (derived_status_is k). cbn [bind]. fold (status_of k).
  now destruct (filtered_out status_filter (status_of k)).
Qed.

Lemma helmrelease_row_is (status_filter : string) (hr : Resource) :
  helmrelease_row status_filter hr =
  Ok (if status_kept status_filter hr then Some (helmrelease_line hr)
      else None).
Proof.
  unfold helmrelease_row, status_kept.
  rewrite (derived_status_is hr). cbn [bind]. fold (status_of hr).
  now destruct (filtered_out status_filter (status_of hr)).
Qed.



Lemma forallb_In {A : Type} (p : A -> bool) (l : list A) (x : A) :
  forallb p l = true -> In x l -> p x = true.
Proof. intros H Hin. rewrite forallb_forall in H. now apply H. Qed.

Lemma filter_all {A : Type} (l : list A) : filter (fun _ => true) l = l.
Proof. induction l as [|x l IH]; simpl; [reflexivity|]. now rewrite IH. Qed.

Lemma list_kustomizations_is (k8s : Cluster) (namespace : option string)
  (status_filter : string) (items : list Resource) :
  list_items k8s "kustomize.toolkit.fluxcd.io/v1" "Kustomization" namespace
  = Ok items ->
  list_kustomizations k8s namespace status_filter =
  Ok (report "No Kustomizations found" "## Flux Kustomizations"
        kustomizations_header
        (map kustomization_line (filter (status_kept status_filter) items))).
Proof.
  intros Hitems. unfold list_kustomizations. rewrite Hitems.
  rewrite (listing_rows _ (status_kept status_filter) kustomization_line).
  - cbn [bind]. now destruct (map _ _).
  - intros k _. apply kustomization_row_is.
Qed.

Lemma list_kustomizations_eq (k8s : Cluster) (namespace : option string)
  (status_filter : string) (items : list Resource) :
  list_items k8s "kustomize.toolkit.fluxcd.io/v1" "Kustomization" namespace
  = Ok items ->
  forallb conditions_ok items = true ->
  list_kustomizations k8s namespace status_filter =
  Ok (report "No Kustomizations found" "## Flux Kustomizations"
        kustomizations_header
        (map kustomization_line (filter (status_kept status_filter) items))).
Proof. intros Hitems _. now apply list_kustomizations_is. Qed.


Lemma get_helmreleases_is (k8s : Cluster) (namespace : option string)
  (status_filter : string) (items : list Resource) :
  list_items k8s "helm.toolkit.fluxcd.io/v2" "HelmRelease" namespace
  = Ok items ->
  get_helmreleases k8s namespace status_filter =
  Ok (report "No HelmReleases found" "## HelmReleases" helmreleases_header
        (map helmrelease_line (filter (status_kept status_filter) items))).
Proof.
  intros Hitems. unfold get_helmreleases. rewrite Hitems.
  rewrite (listing_rows _ (status_kept status_filter) helmrelease_line).
  - cbn [bind]. now destruct (map _ _).
  - intros k _. apply helmrelease_row_is.
Qed.

Lemma get_helmreleases_eq (k8s : Cluster) (namespace : option string)
  (status_filter : string) (items : list Resource) :
  list_items k8s "helm.toolkit.fluxcd.io/v2" "HelmRelease" namespace
  = Ok items ->
  forallb conditions_ok items = true ->
  get_helmreleases k8s namespace status_filter =
  Ok (report "No HelmReleases found" "## HelmReleases" helmreleases_header
        (map helmrelease_line (filter (status_kept status_filter) items))).
Proof. intros Hitems _. now apply get_helmreleases_is. Qed.



Lemma get_app_deployments_eq (k8s : Cluster)
  (workspace app_name : option string) :
  get_app_deployments k8s workspace app_name =
  report "No Kommander Apps/ClusterApps found (Kommander may not be installed)"
    "## Kommander Applications" apps_header
    (map app_results_row (app_results k8s workspace app_name)).
Proof.
  unfold get_app_deployments.
  now destruct (app_results k8s workspace app_name).
Qed.







(** * Further properties of the tools *)

(** ** get_gitops_status *)

Lemma status_of_cases (k : Resource) :
  status_of k = "Suspended" \/ status_of k = "Ready" \/ status_of k = "Failed".
Proof.
  unfold status_of. destruct (suspendedb k); auto.
  destruct (existsb is_ready_trueb (conditions_of k)); auto.
Qed.

Lemma count_status_cons (st : string) (k : Resource) (items : list Resource) :
  count_status st (k :: items) =
  ((if (status_of k =? st)%string then 1 else 0) + count_status st items)%Z.
Proof.
  unfold count_status. cbn [filter].
  destruct (status_of k =? st); cbn [length]; lia.
Qed.

Lemma count_kustomizations_eq (items : list Resource) (r : Counts) :
  for_each count_kustomization items r =
  Ok {| n_ready := n_ready r + count_status "Ready" items;
        n_failed := n_failed r + count_status "Failed" items;
        n_suspended := n_suspended r + count_status "Suspended" items |}.
Proof.
  revert r. induction items as [|k items IH]; cbn [for_each]; intros r.
  - unfold count_status. cbn. rewrite !Z.add_0_r. now destruct r.
  - unfold count_kustomization at 1. rewrite py_any_ready_true.
    cbn [bind]. rewrite IH. rewrite !count_status_cons.
    unfold status_of. fold (suspendedb k).
    destruct (suspendedb k); [|destruct (existsb is_ready_trueb _)];
      simpl (_ =? _)%string; cbv iota; cbn [n_ready n_failed n_suspended];
      f_equal; f_equal; lia.
Qed.

Lemma count_status_total (items : list Resource) :
  (count_status "Ready" items + count_status "Failed" items
   + count_status "Suspended" items = Z.of_nat (length items))%Z.
Proof.
  induction items as [|k items IH]; [reflexivity|].
  rewrite !count_status_cons. cbn [length].
  destruct (status_of_cases k) as [-> | [-> | ->]];
    simpl (_ =? _)%string; cbv iota; lia.
Qed.

Lemma no_failed_count (items : list Resource) :
  (count_status "Failed" items =? 0)%Z =
  forallb (fun k => negb (status_of k =? "Failed")) items.
Proof.
  induction items as [|k items IH]; [reflexivity|].
  rewrite count_status_cons. cbn [forallb].
  destruct (status_of k =? "Failed"); cbn [negb andb].
  - apply Z.eqb_neq. unfold count_status. lia.
  - now rewrite Z.add_0_l.
Qed.

(** The summary counts each Kustomization once, under its status: the row
    shows the numbers of Ready, Failed and Suspended items and their total,
    which is the number of items, and the health line reads Healthy exactly
    when no item is Failed and Issues Detected otherwise. *)
Theorem gitops_status_counts (k8s : Cluster) (namespace : option string)
  (items : list Resource) :
  list_items k8s "kustomize.toolkit.fluxcd.io/v1" "Kustomization" namespace
  = Ok items ->
  get_gitops_status k8s namespace =
  "## GitOps Status Summary" ++ nl ++ nl
  ++ "| Resource | Ready | Failed | Suspended | Total |" ++ nl
  ++ "|----------|-------|--------|-----------|-------|" ++ nl
  ++ "| Kustomizations | " ++ Py.str_of_Z (count_status "Ready" items) ++ " | "
  ++ Py.str_of_Z (count_status "Failed" items) ++ " | "
  ++ Py.str_of_Z (count_status "Suspended" items) ++ " | "
  ++ Py.str_of_Z (Z.of_nat (length items)) ++ " |" ++ nl ++ nl
  ++ "**Health:** "
  ++ (if forallb (fun k => negb (status_of k =? "Failed")) items
      then "✅ Healthy" else "❌ Issues Detected")
  ++ nl /\
  (count_status "Ready" items + count_status "Failed" items
   + count_status "Suspended" items = Z.of_nat (length items))%Z.
Proof.
  intros Hitems. split; [|apply count_status_total].
  unfold get_gitops_status. rewrite Hitems. cbn [bind].
  rewrite count_kustomizations_eq. unfold gitops_summary.
  cbn [n_ready n_failed n_suspended]. rewrite !Z.add_0_l.
  now rewrite count_status_total, no_failed_count.
Qed.

Lemma gitops_status_counts_witness :
  list_items two_kustomizations_cluster "kustomize.toolkit.fluxcd.io/v1"
    "Kustomization" None
  = Ok [sample_resource "infra" (Some "flux-system") None
          (Some [ready_condition]);
        failing_kustomization "BuildFailed"] /\
  get_gitops_status two_kustomizations_cluster None =
  "## GitOps Status Summary" ++ nl ++ nl
  ++ "| Resource | Ready | Failed | Suspended | Total |" ++ nl
  ++ "|----------|-------|--------|-----------|-------|" ++ nl
  ++ "| Kustomizations | 1 | 1 | 0 | 2 |" ++ nl ++ nl
  ++ "**Health:** ❌ Issues Detected" ++ nl.
Proof.
  split; [reflexivity|].
  exact (proj1 (gitops_status_counts two_kustomizations_cluster None _
                  eq_refl)).
Defined.

(** ** The status filter *)

Lemma for_each_ext {A S : Type} (f g : S -> A -> result S) (items : list A) :
  (forall st x, f st x = g st x) ->
  forall st, for_each f items st = for_each g items st.
Proof.
  intros Hfg. induction items as [|x items IH]; intros st; cbn [for_each];
    [reflexivity|].
  rewrite Hfg. destruct (g st x); cbn [bind]; auto.
Qed.

Lemma filtered_out_lower (f1 f2 st : string) :
  Py.lower f1 = Py.lower f2 ->
  (f1 =? "all") = (f2 =? "all") ->
  filtered_out f1 st = filtered_out f2 st.
Proof. unfold filtered_out. now intros -> ->. Qed.

(** A status filter other than [all] is compared without regard to case:
    two filters that differ only in case give the same listing, for
    Kustomizations and for HelmReleases. *)
Theorem status_filter_ignores_case (k8s : Cluster) (namespace : option string)
  (f1 f2 : string) :
  Py.lower f1 = Py.lower f2 ->
  (f1 =? "all") = (f2 =? "all") ->
  list_kustomizations k8s namespace f1 = list_kustomizations k8s namespace f2 /\
  get_helmreleases k8s namespace f1 = get_helmreleases k8s namespace f2.
Proof.
  intros Hl Ha. split.
  - unfold list_kustomizations.
    destruct (list_items k8s _ "Kustomization" namespace); [|reflexivity].
    rewrite (for_each_ext (append_row (kustomization_row f1))
               (append_row (kustomization_row f2))); [reflexivity|].
    intros st k. unfold append_row, kustomization_row.
    destruct (derived_status k); cbn [bind]; [|reflexivity].
    now rewrite (filtered_out_lower f1 f2 _ Hl Ha).
  - unfold get_helmreleases.
    destruct (list_items k8s _ "HelmRelease" namespace); [|reflexivity].
    rewrite (for_each_ext (append_row (helmrelease_row f1))
               (append_row (helmrelease_row f2))); [reflexivity|].
    intros st k. unfold append_row, helmrelease_row.
    destruct (derived_status k); cbn [bind]; [|reflexivity].
    now rewrite (filtered_out_lower f1 f2 _ Hl Ha).
Qed.

Lemma status_filter_ignores_case_witness :
  Py.lower "READY" = Py.lower "ready" /\
  list_kustomizations (failing_cluster "BuildFailed") None "READY"
  = list_kustomizations (failing_cluster "BuildFailed") None "ready".
Proof.
  split; [reflexivity|].
  apply (status_filter_ignores_case (failing_cluster "BuildFailed") None
           "READY" "ready"); reflexivity.
Defined.

Lemma status_kept_unknown (status_filter : string) (k : Resource) :
  (status_filter =? "all") = false ->
  in_list (Py.lower status_filter) ["ready"; "failed"; "suspended"] = false ->
  status_kept status_filter k = false.
Proof.
  unfold in_list. cbn [existsb]. rewrite !orb_false_iff.
  intros Hall [Hr [Hf [Hs _]]].
  unfold status_kept, filtered_out. rewrite Hall. cbn [negb andb].
  rewrite String.eqb_sym in Hr, Hf, Hs.
  destruct (status_of_cases k) as [-> | [-> | ->]];
    change (Py.lower "Suspended") with "suspended";
    change (Py.lower "Ready") with "ready";
    change (Py.lower "Failed") with "failed";
    now rewrite ?Hr, ?Hf, ?Hs.
Qed.

Lemma filter_none {A : Type} (p : A -> bool) (l : list A) :
  (forall x, p x = false) -> filter p l = [].
Proof.
  intros Hp. induction l as [|x l IH]; cbn [filter]; [reflexivity|].
  now rewrite Hp.
Qed.

(** Only the exact word [all] switches the filter off: with any other word
    that is not a status in some case (ALL, the empty string, a misspelt
    status), every Kustomization and HelmRelease is filtered out and the
    answer is the sentence for no row. *)
Theorem status_filter_all_is_exact (k8s : Cluster) (namespace : option string)
  (status_filter : string) :
  (status_filter =? "all") = false ->
  in_list (Py.lower status_filter) ["ready"; "failed"; "suspended"] = false ->
  (forall items,
      list_items k8s "kustomize.toolkit.fluxcd.io/v1" "Kustomization" namespace
      = Ok items ->
      forallb conditions_ok items = true ->
      list_kustomizations k8s namespace status_filter
      = Ok "No Kustomizations found") /\
  (forall items,
      list_items k8s "helm.toolkit.fluxcd.io/v2" "HelmRelease" namespace
      = Ok items ->
      forallb conditions_ok items = true ->
      get_helmreleases k8s namespace status_filter
      = Ok "No HelmReleases found").
Proof.
  intros Hall Hnone. split; intros items Hitems Hok.
  - rewrite (list_kustomizations_eq _ _ _ _ Hitems Hok).
    now rewrite (filter_none _ items
                   (fun k => status_kept_unknown status_filter k Hall Hnone)).
  - rewrite (get_helmreleases_eq _ _ _ _ Hitems Hok).
    now rewrite (filter_none _ items
                   (fun k => status_kept_unknown status_filter k Hall Hnone)).
Qed.

Lemma status_filter_all_is_exact_witness :
  ("ALL" =? "all") = false /\
  list_kustomizations (failing_cluster "BuildFailed") None "ALL"
  = Ok "No Kustomizations found" /\
  list_kustomizations (failing_cluster "BuildFailed") None "all"
  = Ok (table "## Flux Kustomizations" kustomizations_header
          ["| apps | flux-system | Failed | / |"]).
Proof.
  split; [reflexivity|]. split; [|reflexivity].
  apply (proj1 (status_filter_all_is_exact (failing_cluster "BuildFailed")
                  None "ALL" eq_refl eq_refl)
           [failing_kustomization "BuildFailed"]); reflexivity.
Defined.

(** ** Failing lookups *)

(** When the lookup of a tool raises, the tool returns the exception's text
    behind its error prefix: it does not raise and does not answer with an
    empty listing.  [get_events] does so before it reads its limit. *)
Theorem lookup_failure_is_reported (k8s : Cluster) (e : exn) :
  (forall namespace,
      list_items k8s "kustomize.toolkit.fluxcd.io/v1" "Kustomization" namespace
      = Raise e ->
      get_gitops_status k8s namespace
      = "Error querying Flux resources: " ++ Py.str_of_exn e /\
      forall status_filter,
        list_kustomizations k8s namespace status_filter
        = Ok ("Error: " ++ Py.str_of_exn e)) /\
  (forall namespace,
      list_items k8s "source.toolkit.fluxcd.io/v1" "GitRepository" namespace
      = Raise e ->
      list_gitrepositories k8s namespace = Ok ("Error: " ++ Py.str_of_exn e)) /\
  (forall namespace status_filter,
      list_items k8s "helm.toolkit.fluxcd.io/v2" "HelmRelease" namespace
      = Raise e ->
      get_helmreleases k8s namespace status_filter
      = Ok ("Error: " ++ Py.str_of_exn e)) /\
  (forall name namespace,
      dyn_get k8s "kustomize.toolkit.fluxcd.io/v1" "Kustomization"
        name namespace = Raise e ->
      get_kustomization k8s name namespace
      = Ok ("Error: " ++ Py.str_of_exn e)) /\
  (forall resource_type name namespace api_version kind,
      api_map (Py.lower resource_type) = Some (api_version, kind) ->
      dyn_get k8s api_version kind name namespace = Raise e ->
      debug_reconciliation k8s resource_type name namespace
      = Ok ("Error: " ++ Py.str_of_exn e)) /\
  (forall cluster_name namespace,
      list_items k8s "cluster.x-k8s.io/v1beta1" "Cluster" namespace
      = Raise e ->
      get_cluster_status k8s cluster_name namespace
      = Ok ("Error: CAPI not installed or no access: " ++ Py.str_of_exn e)) /\
  (forall cluster_name namespace,
      list_items k8s "cluster.x-k8s.io/v1beta1" "Machine" namespace
      = Raise e ->
      list_machines k8s cluster_name namespace
      = Ok ("Error: " ++ Py.str_of_exn e)) /\
  (forall namespace resource_name event_type limit,
      list_namespaced_event k8s namespace = Raise e ->
      get_events k8s namespace resource_name event_type limit
      = Ok ("Error: " ++ Py.str_of_exn e)) /\
  (forall constraint_kind,
      dyn_list k8s "templates.gatekeeper.sh/v1" "ConstraintTemplate" None
      = Raise e ->
      list_constraints k8s constraint_kind
      = "Error: Gatekeeper not installed or no access: " ++ Py.str_of_exn e).
Proof.
  repeat split; intros.
  - unfold get_gitops_status. now rewrite H.
  - unfold list_kustomizations. now rewrite H.
  - unfold list_gitrepositories. now rewrite H.
  - unfold get_helmreleases. now rewrite H.
  - unfold get_kustomization. now rewrite H.
  - unfold debug_reconciliation. now rewrite H, H0.
  - unfold get_cluster_status. now rewrite H.
  - unfold list_machines. now rewrite H.
  - unfold get_events. now rewrite H.
  - unfold list_constraints. now rewrite H.
Qed.

Lemma lookup_failure_is_reported_witness :
  list_namespaced_event (unreachable not_found) "default" = Raise not_found /\
  get_events (unreachable not_found) "default" None "all" "abc"
  = Ok "Error: 404 page not found".
Proof.
  split; [reflexivity|].
  apply (lookup_failure_is_reported (unreachable not_found) not_found).
  reflexivity.
Defined.

(** ** Lookups whose failure is not reported *)

(** [get_app_deployments] and [check_policy_violations] swallow a failing
    lookup: when the lookups of both application kinds raise, whatever the
    two exceptions, the answer is the sentence for no application; and when
    the lookups of the templates and of both kinds of policy report raise,
    whatever the three exceptions, the answer is the report of no violation,
    whatever engine is asked for. *)
Theorem swallowed_failures_look_empty (k8s : Cluster) :
  (forall workspace app_name e1 e2,
      list_items k8s "apps.kommander.d2iq.io/v1alpha2" "App" workspace
      = Raise e1 ->
      dyn_list k8s "apps.kommander.d2iq.io/v1alpha2" "ClusterApp" None
      = Raise e2 ->
      get_app_deployments k8s workspace app_name =
      "No Kommander Apps/ClusterApps found (Kommander may not be installed)") /\
  (forall namespace policy_engine e1 e2 e3,
      dyn_list k8s "templates.gatekeeper.sh/v1" "ConstraintTemplate" None
      = Raise e1 ->
      dyn_list k8s "wgpolicyk8s.io/v1alpha2" "ClusterPolicyReport" None
      = Raise e2 ->
      list_items k8s "wgpolicyk8s.io/v1alpha2" "PolicyReport" namespace
      = Raise e3 ->
      check_policy_violations k8s namespace policy_engine =
      "## Policy Violations" ++ nl ++ nl
      ++ "**Engine(s) checked:** " ++ policy_engine ++ nl
      ++ "**Result:** ✅ No violations found" ++ nl).
Proof.
  split.
  - intros workspace app_name e1 e2 Happ Hcapp.
    unfold get_app_deployments, app_results. now rewrite Happ, Hcapp.
  - intros namespace policy_engine e1 e2 e3 Hct Hcpr Hpr.
    rewrite check_policy_violations_eq.
    unfold policy_violations, _check_gatekeeper_violations,
      _check_kyverno_violations.
    rewrite Hct, Hcpr, Hpr.
    now destruct (in_list policy_engine ["gatekeeper"; "both"]),
      (in_list policy_engine ["kyverno"; "both"]).
Qed.

Lemma swallowed_failures_look_empty_witness :
  list_items clusterapp_cluster "wgpolicyk8s.io/v1alpha2" "PolicyReport"
    (Some "dev") = Raise not_found /\
  dyn_list clusterapp_cluster "apps.kommander.d2iq.io/v1alpha2" "ClusterApp"
    None = Ok [ready_clusterapp] /\
  check_policy_violations clusterapp_cluster (Some "dev") "both" =
  "## Policy Violations" ++ nl ++ nl
  ++ "**Engine(s) checked:** both" ++ nl
  ++ "**Result:** ✅ No violations found" ++ nl /\
  get_app_deployments (unreachable not_found) (Some "dev") None =
  "No Kommander Apps/ClusterApps found (Kommander may not be installed)".
Proof.
  split; [reflexivity|]. split; [reflexivity|]. split.
  - exact (proj2 (swallowed_failures_look_empty clusterapp_cluster)
             (Some "dev") "both" not_found not_found not_found
             eq_refl eq_refl eq_refl).
  - exact (proj1 (swallowed_failures_look_empty (unreachable not_found))
             (Some "dev") None not_found not_found eq_refl eq_refl).
Defined.

(** ** get_app_deployments: the merged list *)

Lemma app_entries_eq (type_ : string) (app_name : option string)
  (items : list Resource) :
  forallb conditions_ok items = true ->
  forall results_,
    for_each_caught (app_entry type_ app_name) items results_ =
    (results_ ++ map (app_result_of type_)
                   (filter (app_selected app_name) items))%list.
Proof.
  induction items as [|app items IH]; cbn [forallb for_each_caught filter];
    intros H results_.
  - now rewrite app_nil_r.
  - apply andb_true_iff in H as [Happ Hitems].
    destruct (app_selected app_name app) eqn:Hsel.
    + rewrite (app_entry_ready _ _ _ _ Hsel Happ), (IH Hitems).
      cbn [map]. now rewrite <- app_assoc.
    + assert (Hskip : app_entry type_ app_name results_ app = Ok results_).
      { unfold app_entry. unfold app_selected in Hsel.
        apply orb_false_iff in Hsel as [Ht Hn].
        apply negb_false_iff in Ht. now rewrite Ht, Hn. }
      rewrite Hskip. apply (IH Hitems).
Qed.

(** When both lookups succeed, the report lists the Apps of the workspace
    first, in the order served, then the ClusterApps, each kind filtered by
    [app_name]; the workspace does not restrict the ClusterApps. *)
Theorem app_results_merge (k8s : Cluster) (workspace app_name : option string)
  (apps cluster_apps : list Resource) :
  list_items k8s "apps.kommander.d2iq.io/v1alpha2" "App" workspace = Ok apps ->
  dyn_list k8s "apps.kommander.d2iq.io/v1alpha2" "ClusterApp" None
  = Ok cluster_apps ->
  forallb conditions_ok apps = true ->
  forallb conditions_ok cluster_apps = true ->
  app_results k8s workspace app_name =
  (map (app_result_of "App") (filter (app_selected app_name) apps)
   ++ map (app_result_of "ClusterApp")
        (filter (app_selected app_name) cluster_apps))%list /\
  get_app_deployments k8s workspace app_name =
  report "No Kommander Apps/ClusterApps found (Kommander may not be installed)"
    "## Kommander Applications" apps_header
    (map app_results_row
       (map (app_result_of "App") (filter (app_selected app_name) apps)
        ++ map (app_result_of "ClusterApp")
             (filter (app_selected app_name) cluster_apps))%list).
Proof.
  intros Happs Hcapps Hok1 Hok2.
  assert (H : app_results k8s workspace app_name =
    (map (app_result_of "App") (filter (app_selected app_name) apps)
     ++ map (app_result_of "ClusterApp")
          (filter (app_selected app_name) cluster_apps))%list).
  { unfold app_results. rewrite Happs, Hcapps.
    rewrite (app_entries_eq "App" app_name apps Hok1).
    now rewrite (app_entries_eq "ClusterApp" app_name cluster_apps Hok2). }
  split; [exact H|]. now rewrite get_app_deployments_eq, H.
Qed.

Lemma app_results_merge_witness :
  dyn_list (failing_cluster "BuildFailed") "apps.kommander.d2iq.io/v1alpha2"
    "ClusterApp" None = Ok [failing_kustomization "BuildFailed"] /\
  map app_type (app_results (failing_cluster "BuildFailed") (Some "dev") None)
  = ["App"; "ClusterApp"].
Proof.
  split; [reflexivity|].
  rewrite (proj1 (app_results_merge (failing_cluster "BuildFailed")
                    (Some "dev") None [failing_kustomization "BuildFailed"]
                    [failing_kustomization "BuildFailed"]
                    eq_refl eq_refl eq_refl eq_refl)).
  reflexivity.
Defined.

(** ** The namespace given as the empty string *)

(** An empty string for an optional argument is the same as leaving it out,
    for each argument by itself and whatever the other arguments are: the
    namespace (all namespaces are read), the workspace, and the name filters
    of the listings. *)
Theorem empty_string_is_absent (k8s : Cluster) :
  get_gitops_status k8s (Some EmptyString) = get_gitops_status k8s None /\
  (forall status_filter,
      list_kustomizations k8s (Some EmptyString) status_filter
      = list_kustomizations k8s None status_filter /\
      get_helmreleases k8s (Some EmptyString) status_filter
      = get_helmreleases k8s None status_filter) /\
  list_gitrepositories k8s (Some EmptyString) = list_gitrepositories k8s None /\
  (forall namespace,
      get_cluster_status k8s (Some EmptyString) namespace
      = get_cluster_status k8s None namespace) /\
  (forall cluster_name,
      get_cluster_status k8s cluster_name (Some EmptyString)
      = get_cluster_status k8s cluster_name None) /\
  (forall namespace,
      list_machines k8s (Some EmptyString) namespace
      = list_machines k8s None namespace) /\
  (forall cluster_name,
      list_machines k8s cluster_name (Some EmptyString)
      = list_machines k8s cluster_name None) /\
  (forall namespace event_type limit,
      get_events k8s namespace (Some EmptyString) event_type limit
      = get_events k8s namespace None event_type limit) /\
  (forall app_name,
      get_app_deployments k8s (Some EmptyString) app_name
      = get_app_deployments k8s None app_name) /\
  (forall workspace,
      get_app_deployments k8s workspace (Some EmptyString)
      = get_app_deployments k8s workspace None) /\
  (forall policy_engine,
      check_policy_violations k8s (Some EmptyString) policy_engine
      = check_policy_violations k8s None policy_engine) /\
  list_constraints k8s (Some EmptyString) = list_constraints k8s None.
Proof.
  repeat split; intros; try reflexivity.
  unfold get_events.
  destruct (list_namespaced_event k8s namespace) as [items|]; [|reflexivity].
  destruct (sorted_reverse event_key items); cbn [bind]; [|reflexivity].
  destruct (Py.int limit); cbn [bind]; [|reflexivity].
  now rewrite !events_loop_eq.
Qed.

(** ** _check_kyverno_violations *)

Lemma kyverno_result_ok (acc : list PolicyViolation) (r : ReportResult) :
  negb (is_fail r && no_resources r) = true ->
  kyverno_result acc r =
  Ok (if is_fail r then (acc ++ [kyverno_violation_of r])%list else acc).
Proof.
  unfold kyverno_result, is_fail, no_resources, kyverno_violation_of,
    first_resource.
  destruct (Py.opt_eqb (rr_result r) "fail"); [|reflexivity].
  destruct (rr_resources r) as [[|first rest]|]; cbn; intros H;
    [discriminate| |]; reflexivity.
Qed.

Lemma kyverno_results_ok (rs : list ReportResult) :
  forallb (fun r => negb (is_fail r && no_resources r)) rs = true ->
  forall acc,
    kyverno_results rs acc =
    ((acc ++ map kyverno_violation_of (filter is_fail rs))%list, false).
Proof.
  induction rs as [|r rs IH]; cbn [forallb kyverno_results filter];
    intros H acc.
  - now rewrite app_nil_r.
  - apply andb_true_iff in H as [Hr Hrs].
    rewrite (kyverno_result_ok acc r Hr), (IH Hrs).
    destruct (is_fail r); cbn [map]; [now rewrite <- app_assoc|reflexivity].
Qed.

Lemma kyverno_reports_ok (reports : list Resource) :
  reports_ok reports = true ->
  forall acc,
    kyverno_reports reports acc = (acc ++ report_violations reports)%list.
Proof.
  unfold reports_ok, report_violations.
  induction reports as [|report reports IH];
    cbn [forallb kyverno_reports flat_map]; intros H acc.
  - now rewrite app_nil_r.
  - apply andb_true_iff in H as [Hr Hrs].
    rewrite (kyverno_results_ok _ Hr), (IH Hrs). now rewrite <- app_assoc.
Qed.

(** The Kyverno violations are the results with outcome [fail] (no other
    outcome counts) of the cluster-wide reports, in the order served, followed
    by those of the namespaced reports; a lookup that raises contributes
    none and leaves the other's untouched; the namespace restricts the
    namespaced reports only.  (No failing result names an empty list of
    resources.) *)
Theorem kyverno_violations_listed (k8s : Cluster) (namespace : option string) :
  let cluster_reports :=
    served (dyn_list k8s "wgpolicyk8s.io/v1alpha2" "ClusterPolicyReport" None) in
  let reports :=
    served (list_items k8s "wgpolicyk8s.io/v1alpha2" "PolicyReport" namespace) in
  reports_ok cluster_reports = true ->
  reports_ok reports = true ->
  _check_kyverno_violations k8s namespace =
  (report_violations cluster_reports ++ report_violations reports)%list.
Proof.
  intros cluster_reports reports Hc Hr.
  unfold _check_kyverno_violations. subst cluster_reports reports.
  destruct (dyn_list k8s _ "ClusterPolicyReport" None) as [crs|];
    destruct (list_items k8s _ "PolicyReport" namespace) as [rs|];
    cbn [served] in *.
  - now rewrite (kyverno_reports_ok crs Hc), (kyverno_reports_ok rs Hr).
  - rewrite (kyverno_reports_ok crs Hc). cbn.
    now rewrite app_nil_r.
  - now rewrite (kyverno_reports_ok rs Hr).
  - reflexivity.
Qed.

Lemma kyverno_violations_listed_witness :
  reports_ok (served (dyn_list kyverno_reports_cluster
                        "wgpolicyk8s.io/v1alpha2" "ClusterPolicyReport" None))
  = true /\
  reports_ok (served (list_items kyverno_reports_cluster
                        "wgpolicyk8s.io/v1alpha2" "PolicyReport" None))
  = true /\
  _check_kyverno_violations kyverno_reports_cluster None =
  [{| engine := "Kyverno"; policy := "p1"; resource := "Pod/a";
      message := "validation failure" |};
   {| engine := "Kyverno"; policy := "p3"; resource := "/";
      message := "validation failure" |}].
Proof.
  split; [reflexivity|]. split; [reflexivity|].
  exact (kyverno_violations_listed kyverno_reports_cluster None
           eq_refl eq_refl).
Defined.

Lemma kyverno_results_cut (rs1 rs2 : list ReportResult) (r : ReportResult) :
  forallb (fun r => negb (is_fail r && no_resources r)) rs1 = true ->
  is_fail r && no_resources r = true ->
  forall acc,
    kyverno_results (rs1 ++ r :: rs2) acc =
    ((acc ++ map kyverno_violation_of (filter is_fail rs1))%list, true).
Proof.
  intros H1 Hr. induction rs1 as [|r1 rs1 IH]; intros acc.
  - cbn [app kyverno_results filter map]. rewrite app_nil_r.
    apply andb_true_iff in Hr as [Hf Hn].
    unfold kyverno_result, first_resource. unfold is_fail in Hf. rewrite Hf.
    unfold no_resources in Hn.
    destruct (rr_resources r) as [[|x l]|]; try discriminate. reflexivity.
  - cbn [forallb] in H1. apply andb_true_iff in H1 as [Hr1 Hrs1].
    cbn [app kyverno_results filter].
    rewrite (kyverno_result_ok acc r1 Hr1), (IH Hrs1).
    destruct (is_fail r1); cbn [map]; [now rewrite <- app_assoc|reflexivity].
Qed.

Lemma kyverno_reports_cut (before after : list Resource) (report : Resource)
  (rs1 rs2 : list ReportResult) (r : ReportResult) :
  reports_ok before = true ->
  results report = Some (rs1 ++ r :: rs2)%list ->
  forallb (fun r => negb (is_fail r && no_resources r)) rs1 = true ->
  is_fail r && no_resources r = true ->
  forall acc,
    kyverno_reports (before ++ report :: after) acc =
    (acc ++ report_violations before
     ++ map kyverno_violation_of (filter is_fail rs1))%list.
Proof.
  intros Hb Hres H1 Hr. unfold reports_ok in Hb.
  induction before as [|b before IH]; intros acc.
  - cbn [app kyverno_reports]. rewrite Hres. cbn [Py.get].
    now rewrite (kyverno_results_cut rs1 rs2 r H1 Hr).
  - cbn [forallb] in Hb. apply andb_true_iff in Hb as [Hb0 Hb].
    cbn [app kyverno_reports]. rewrite (kyverno_results_ok _ Hb0).
    rewrite (IH Hb). unfold report_violations. cbn [flat_map].
    now rewrite <- !app_assoc.
Qed.

(** A failing result that names an empty list of resources ends the scan of
    its kind of report: the failing results before it stay, the results
    after it and all later reports of that kind are dropped, and the
    namespaced reports are still scanned. *)
Theorem kyverno_empty_resources_cut (k8s : Cluster)
  (namespace : option string) (before after reports : list Resource)
  (rs1 rs2 : list ReportResult) (r : ReportResult) (report : Resource) :
  dyn_list k8s "wgpolicyk8s.io/v1alpha2" "ClusterPolicyReport" None
  = Ok (before ++ report :: after)%list ->
  results report = Some (rs1 ++ r :: rs2)%list ->
  list_items k8s "wgpolicyk8s.io/v1alpha2" "PolicyReport" namespace
  = Ok reports ->
  reports_ok before = true ->
  forallb (fun r => negb (is_fail r && no_resources r)) rs1 = true ->
  is_fail r && no_resources r = true ->
  reports_ok reports = true ->
  _check_kyverno_violations k8s namespace =
  (report_violations before
   ++ map kyverno_violation_of (filter is_fail rs1)
   ++ report_violations reports)%list.
Proof.
  intros Hc Hres Hp Hb H1 Hr Hok.
  unfold _check_kyverno_violations. rewrite Hc, Hp.
  rewrite (kyverno_reports_cut before after report rs1 rs2 r Hb Hres H1 Hr).
  rewrite (kyverno_reports_ok reports Hok). cbn [app].
  now rewrite <- app_assoc.
Qed.

Lemma kyverno_empty_resources_cut_witness :
  is_fail (failing_result "p2" (Some []))
  && no_resources (failing_result "p2" (Some [])) = true /\
  map policy (_check_kyverno_violations kyverno_cluster None) = ["p1"; "p5"].
Proof.
  split; [reflexivity|].
  rewrite (kyverno_empty_resources_cut kyverno_cluster None []
             [policy_report [failing_result "p4" (Some [pod_ref "d"])]]
             [policy_report [failing_result "p5" None]]
             [failing_result "p1" (Some [pod_ref "a"])]
             [failing_result "p3" (Some [pod_ref "c"])]
             (failing_result "p2" (Some []))
             (policy_report [failing_result "p1" (Some [pod_ref "a"]);
                             failing_result "p2" (Some []);
                             failing_result "p3" (Some [pod_ref "c"])])
             eq_refl eq_refl eq_refl eq_refl eq_refl eq_refl eq_refl).
  reflexivity.
Defined.

(** ** _check_gatekeeper_violations *)

Lemma fold_left_flat_map {A B : Type} (f : list B -> A -> list B)
  (g : A -> list B) (l : list A) :
  (forall acc x, f acc x = (acc ++ g x)%list) ->
  forall acc, fold_left f l acc = (acc ++ flat_map g l)%list.
Proof.
  intros Hf. induction l as [|x l IH]; intros acc; cbn [fold_left flat_map].
  - now rewrite app_nil_r.
  - now rewrite Hf, IH, <- app_assoc.
Qed.

Lemma flat_map_filter {A B : Type} (p : A -> bool) (g : A -> B) (l : list A) :
  flat_map (fun x => if p x then [] else [g x]) l
  = map g (filter (fun x => negb (p x)) l).
Proof.
  induction l as [|x l IH]; cbn [flat_map filter]; [reflexivity|].
  destruct (p x); cbn [negb app map]; now rewrite IH.
Qed.

Lemma gatekeeper_constraint_eq (namespace : option string)
  (acc : list PolicyViolation) (constraint : Resource) :
  gatekeeper_constraint namespace acc constraint =
  (acc ++ constraint_violations namespace constraint)%list.
Proof.
  unfold gatekeeper_constraint, constraint_violations.
  destruct (0 <? _)%Z; [|now rewrite app_nil_r].
  rewrite (fold_left_flat_map _
             (fun v => if other_namespace namespace v then []
                       else [gatekeeper_violation_of constraint v])).
  - now rewrite flat_map_filter.
  - intros acc' v. unfold gatekeeper_violation.
    destruct (other_namespace namespace v); [now rewrite app_nil_r|].
    reflexivity.
Qed.

Lemma gatekeeper_template_eq (k8s : Cluster) (namespace : option string)
  (acc : list PolicyViolation) (template : Resource) :
  gatekeeper_template k8s namespace acc template =
  (acc ++ template_violations k8s namespace template)%list.
Proof.
  unfold gatekeeper_template, template_violations.
  destruct (dyn_list k8s _ _ None); [|now rewrite app_nil_r].
  apply fold_left_flat_map. intros acc' c. apply gatekeeper_constraint_eq.
Qed.

Lemma gatekeeper_violations_eq (k8s : Cluster) (namespace : option string) :
  _check_gatekeeper_violations k8s namespace =
  flat_map (template_violations k8s namespace)
    (served (dyn_list k8s "templates.gatekeeper.sh/v1" "ConstraintTemplate"
               None)).
Proof.
  unfold _check_gatekeeper_violations.
  destruct (dyn_list k8s _ "ConstraintTemplate" None); [|reflexivity].
  cbn [served].
  now rewrite (fold_left_flat_map _ (template_violations k8s namespace) _
                 (gatekeeper_template_eq k8s namespace)).
Qed.

(** The Gatekeeper violations are listed template by template and constraint
    by constraint, in the order served; a template whose constraint kind is
    not served contributes none and does not disturb the others, and so does
    a constraint whose [totalViolations] is absent or not positive, whatever
    its list of violations holds.  With a namespace given, every violation
    listed comes from an entry of that namespace. *)
Theorem gatekeeper_violations_listed (k8s : Cluster)
  (namespace : option string) :
  _check_gatekeeper_violations k8s namespace =
  flat_map (template_violations k8s namespace)
    (served (dyn_list k8s "templates.gatekeeper.sh/v1" "ConstraintTemplate"
               None)) /\
  (forall constraint,
      (Py.get (totalViolations (Py.get (status constraint) no_status)) 0
       <= 0)%Z ->
      constraint_violations namespace constraint = []) /\
  (forall ns pv,
      namespace = Some ns -> ns <> EmptyString ->
      In pv (_check_gatekeeper_violations k8s namespace) ->
      exists template constraint v,
        In template (served (dyn_list k8s "templates.gatekeeper.sh/v1"
                               "ConstraintTemplate" None)) /\
        In constraint
          (served (dyn_list k8s "constraints.gatekeeper.sh/v1beta1"
                     (constraint_kind_of (m_name (metadata template))) None)) /\
        In v (Py.get (violations (Py.get (status constraint) no_status)) []) /\
        v_namespace v = Some ns /\
        pv = gatekeeper_violation_of constraint v).
Proof.
  split; [apply gatekeeper_violations_eq|]. split.
  - intros constraint Hle. unfold constraint_violations.
    destruct (0 <? _)%Z eqn:E; [|reflexivity].
    apply Z.ltb_lt in E. lia.
  - intros ns pv Hns Hne Hin. rewrite gatekeeper_violations_eq in Hin.
    apply in_flat_map in Hin as [template [Ht Hin]].
    exists template. unfold template_violations in Hin.
    destruct (dyn_list k8s "constraints.gatekeeper.sh/v1beta1" _ None)
      as [constraints|]; [|contradiction].
    apply in_flat_map in Hin as [constraint [Hc Hin]].
    exists constraint. unfold constraint_violations in Hin.
    destruct (0 <? _)%Z; [|contradiction].
    apply in_map_iff in Hin as [v [Hpv Hv]].
    apply filter_In in Hv as [Hv Hkeep].
    exists v. repeat split; auto.
    subst namespace. unfold other_namespace in Hkeep.
    apply negb_true_iff in Hkeep.
    assert (Htruthy : Py.truthy ns = true).
    { unfold Py.truthy. apply negb_true_iff. now apply String.eqb_neq. }
    rewrite Htruthy in Hkeep. cbn [andb] in Hkeep.
    apply negb_false_iff in Hkeep. now apply opt_eqb_eq.
Qed.

Lemma gatekeeper_violations_listed_witness :
  Some "default" = Some "default" /\
  map resource
    (_check_gatekeeper_violations two_violations_cluster (Some "default"))
  = ["Pod/web"; "Pod/db"] /\
  _check_gatekeeper_violations two_violations_cluster (Some "kube-system")
  = [].
Proof.
  split; [reflexivity|].
  rewrite !(proj1 (gatekeeper_violations_listed two_violations_cluster _)).
  split; reflexivity.
Defined.

(** ** The constraint kind and the filter of list_constraints *)

Lemma has_char_cons (c d : ascii) (s : string) :
  Py.has_char c (String d s) = Ascii.eqb d c || Py.has_char c s.
Proof.
  unfold Py.has_char. cbn [Py.contains prefix].
  destruct (ascii_dec c d) as [->|Hne].
  - rewrite Ascii.eqb_refl. now destruct s.
  - assert (E : Ascii.eqb d c = false)
      by (apply Ascii.eqb_neq; congruence).
    now rewrite E.
Qed.

Lemma has_char_nil (c : ascii) : Py.has_char c EmptyString = false.
Proof. reflexivity. Qed.

Lemma to_lower_facts (c : ascii) :
  Py.to_lower (Py.to_upper c) = Py.to_lower c /\
  Py.to_lower (Py.to_lower c) = Py.to_lower c /\
  Ascii.eqb (Py.to_lower c) "-" = Ascii.eqb c "-".
Proof.
  destruct c as [[] [] [] [] [] [] [] []]; repeat split; reflexivity.
Qed.

Lemma lower_title (s : string) :
  forall cased, Py.lower (Py.title_from cased s) = Py.lower s.
Proof.
  induction s as [|c s IH]; intros cased; cbn [Py.title_from Py.lower];
    [reflexivity|].
  destruct (to_lower_facts c) as [Hup [Hlow _]].
  destruct (Py.is_lower c); [|destruct (Py.is_upper c)];
    cbn [Py.lower]; rewrite IH; destruct cased; now rewrite ?Hup, ?Hlow.
Qed.

Lemma has_hyphen_lower (s : string) :
  Py.has_char "-" (Py.lower s) = Py.has_char "-" s.
Proof.
  induction s as [|c s IH]; [reflexivity|].
  cbn [Py.lower]. rewrite !has_char_cons, IH.
  now destruct (to_lower_facts c) as [_ [_ ->]].
Qed.

Lemma remove_hyphen_none (s : string) :
  Py.has_char "-" s = false -> Py.remove_char "-" s = s.
Proof.
  induction s as [|c s IH]; [reflexivity|].
  rewrite has_char_cons. intros H. apply orb_false_iff in H as [Hc Hs].
  cbn [Py.remove_char]. rewrite Hc. now rewrite (IH Hs).
Qed.

Lemma remove_hyphen_clean (s : string) :
  Py.has_char "-" (Py.remove_char "-" s) = false.
Proof.
  induction s as [|c s IH]; [reflexivity|].
  cbn [Py.remove_char]. destruct (Ascii.eqb c "-") eqn:E; [exact IH|].
  now rewrite has_char_cons, E, IH.
Qed.

Lemma has_hyphen_title (s : string) :
  forall cased, Py.has_char "-" (Py.title_from cased s) = Py.has_char "-" s.
Proof.
  intros cased.
  rewrite <- (has_hyphen_lower (Py.title_from cased s)), lower_title.
  apply has_hyphen_lower.
Qed.

Lemma lower_remove_hyphen (s : string) :
  Py.lower (Py.remove_char "-" s) = Py.remove_char "-" (Py.lower s).
Proof.
  induction s as [|c s IH]; [reflexivity|].
  cbn [Py.remove_char Py.lower].
  destruct (to_lower_facts c) as [_ [_ ->]].
  destruct (Ascii.eqb c "-"); cbn [Py.lower]; now rewrite IH.
Qed.

Lemma constraint_kind_lower (name : string) :
  Py.has_char "-" (constraint_kind_of name) = false /\
  Py.lower (constraint_kind_of name) = Py.remove_char "-" (Py.lower name) /\
  (Py.has_char "-" name = false ->
   Py.lower (constraint_kind_of name) = Py.lower name).
Proof.
  unfold constraint_kind_of, Py.title.
  split; [apply remove_hyphen_clean|].
  split.
  - now rewrite lower_remove_hyphen, lower_title.
  - intros Hno. rewrite lower_remove_hyphen, lower_title.
    apply remove_hyphen_none. now rewrite has_hyphen_lower.
Qed.

(** The kind looked up for a template never holds a hyphen, and apart from
    the case of its letters it is the template's name without its hyphens. *)
Theorem constraint_kind_drops_hyphens (name : string) :
  Py.has_char "-" (constraint_kind_of name) = false /\
  Py.lower (constraint_kind_of name) = Py.remove_char "-" (Py.lower name) /\
  (Py.has_char "-" name = false ->
   Py.lower (constraint_kind_of name) = Py.lower name).
Proof.
  unfold constraint_kind_of, Py.title.
  split; [apply remove_hyphen_clean|].
  rewrite lower_remove_hyphen, lower_title.
  split; [reflexivity|].
  intros Hno. apply remove_hyphen_none.
  now rewrite has_hyphen_lower.
Qed.

Lemma constraint_kind_drops_hyphens_witness :
  Py.has_char "-" "k8srequiredlabels" = false /\
  Py.lower (constraint_kind_of "k8srequiredlabels") = "k8srequiredlabels".
Proof.
  split; [reflexivity|].
  apply (constraint_kind_drops_hyphens "k8srequiredlabels"). reflexivity.
Defined.

Lemma other_kind_of_own_kind (name : string) :
  Py.truthy (constraint_kind_of name) = true ->
  other_kind (Some (constraint_kind_of name)) name = Py.has_char "-" name.
Proof.
  intros Ht. unfold other_kind. rewrite Ht. cbn [andb].
  destruct (constraint_kind_lower name) as [Hclean [_ Hsame]].
  destruct (Py.has_char "-" name) eqn:Hh.
  - apply negb_true_iff, String.eqb_neq. intros Heq.
    assert (H1 : Py.has_char "-" (Py.lower name) = true)
      by now rewrite has_hyphen_lower.
    rewrite Heq, has_hyphen_lower, Hclean in H1. discriminate.
  - apply negb_false_iff, String.eqb_eq. symmetry. now apply Hsame.
Qed.

(** The filter of [list_constraints] compares the template's name, not the
    kind: filtering by the very kind that is looked up for a template keeps
    the template when its name has no hyphen and skips it when it has one,
    so that on a cluster with that one template the answer is the unfiltered
    listing in the first case and the sentence for no constraint in the
    second. *)
Theorem constraint_kind_filter_on_name (k8s : Cluster) (template : Resource) :
  let name := m_name (metadata template) in
  Py.truthy (constraint_kind_of name) = true ->
  dyn_list k8s "templates.gatekeeper.sh/v1" "ConstraintTemplate" None
  = Ok [template] ->
  other_kind (Some (constraint_kind_of name)) name = Py.has_char "-" name /\
  list_constraints k8s (Some (constraint_kind_of name)) =
  if Py.has_char "-" name then "No Gatekeeper constraints found"
  else list_constraints k8s None.
Proof.
  intros name Ht Htemplates.
  pose proof (other_kind_of_own_kind name Ht) as Hk.
  split; [exact Hk|].
  unfold list_constraints. rewrite Htemplates. cbn [fold_left].
  unfold constraints_of_template. fold name. rewrite Hk.
  destruct (Py.has_char "-" name); reflexivity.
Qed.

Lemma constraint_kind_filter_on_name_witness :
  Py.truthy (constraint_kind_of "unique-labels") = true /\
  list_constraints two_violations_cluster (Some "UniqueLabels")
  = "No Gatekeeper constraints found" /\
  Py.contains "| unique-labels | repo-is-internal | deny |"
    (list_constraints two_violations_cluster None) = true.
Proof.
  split; [reflexivity|]. split; [|reflexivity].
  exact (proj2 (constraint_kind_filter_on_name two_violations_cluster
                  (sample_resource "unique-labels" None None None)
                  eq_refl eq_refl)).
Defined.

(** ** get_events: the limit and the order *)

(** The rows of [get_events] are never more than the limit nor than the
    events read, and when the events that pass the filters fit within the
    limit none is left out; a limit of zero or less gives no row, so the
    answer is the sentence for no event, provided the events sort: the sort
    comes before the limit is read, and when a stamped and an unstamped
    event are served [get_events] raises whatever the limit is. *)
Theorem get_events_at_most_limit (k8s : Cluster) (namespace : string)
  (resource_name : option string) (event_type : string)
  (events : list Event) (max_count : Z) :
  let rows := events_loop resource_name event_type max_count events [] 0 in
  (length rows <= Z.to_nat max_count)%nat /\
  (length rows <= length events)%nat /\
  ((length (filter (event_kept resource_name event_type) events)
    <= Z.to_nat max_count)%nat ->
   rows = map event_row
            (filter (event_kept resource_name event_type) events)) /\
  (forall limit,
      list_namespaced_event k8s namespace = Ok events ->
      mixed_keys event_key events = false ->
      Py.int limit = Ok max_count ->
      (max_count <= 0)%Z ->
      get_events k8s namespace resource_name event_type limit
      = Ok ("No events found in namespace " ++ namespace)) /\
  (forall limit,
      list_namespaced_event k8s namespace = Ok events ->
      mixed_keys event_key events = true ->
      exists msg,
        get_events k8s namespace resource_name event_type limit
        = Raise (TypeError msg)).
Proof.
  intros rows. subst rows. rewrite events_loop_eq, Z.sub_0_r. cbn [app].
  rewrite length_map. split; [|split; [|split; [|split]]].
  - apply firstn_le_length.
  - rewrite length_firstn.
    pose proof (filter_length_le (event_kept resource_name event_type) events).
    lia.
  - intros Hfit. now rewrite firstn_all2.
  - intros limit Hitems Hkeys Hlimit Hle.
    rewrite (get_events_eq _ _ resource_name event_type _ _ _ _ Hitems
               (proj2 (sorted_reverse_result event_key events) Hkeys) Hlimit).
    replace (Z.to_nat max_count) with 0%nat by lia. reflexivity.
  - intros limit Hitems Hkeys. now apply (get_events_mixed _ _ _ _ _ events).
Qed.

Lemma get_events_at_most_limit_witness :
  list_namespaced_event events_cluster "default"
  = Ok [event_T3; event_T1; event_T2] /\
  mixed_keys event_key [event_T3; event_T1; event_T2] = false /\
  Py.int "-1" = Ok (-1)%Z /\
  get_events events_cluster "default" None "all" "-1"
  = Ok "No events found in namespace default".
Proof.
  split; [reflexivity|]. split; [reflexivity|]. split; [reflexivity|].
  apply (get_events_at_most_limit events_cluster "default" None "all"
           [event_T3; event_T1; event_T2] (-1)%Z); [reflexivity..|lia].
Defined.

(** The sort of [get_events] raises when the list holds a stamped and an
    unstamped event; otherwise it returns the events newest first, each one
    once, and it is stable: the events of one instant (be it the last
    timestamp of one and the event time of another) stay in the order the
    server gave them, and a list that is already newest first is left as it
    is. *)
Theorem events_sort_is_stable (items : list Event) :
  (mixed_keys event_key items = true ->
   exists msg, sorted_reverse event_key items = Raise (TypeError msg)) /\
  (mixed_keys event_key items = false ->
   exists sorted_events,
     sorted_reverse event_key items = Ok sorted_events /\
     Permutation sorted_events items /\
     StronglySorted (key_ge event_key) sorted_events /\
     (forall k,
         filter (fun e => key_eqb (event_key e) k) sorted_events
         = filter (fun e => key_eqb (event_key e) k) items) /\
     sorted_reverse event_key sorted_events = Ok sorted_events) /\
  (StronglySorted (key_ge event_key) items ->
   sorted_reverse event_key items = Ok items).
Proof.
  assert (Hfixed : forall l, StronglySorted (key_ge event_key) l ->
                             sorted_reverse event_key l = Ok l).
  { intros l Hl.
    rewrite (proj2 (sorted_reverse_result event_key l)
               (sorted_kind event_key l Hl)).
    now rewrite (sort_by_fixed event_key l Hl). }
  split; [apply sorted_reverse_result|]. split; [|apply Hfixed].
  intros Hkeys. exists (sort_by event_key items).
  assert (Hsorted : StronglySorted (key_ge event_key)
                      (sort_by event_key items)).
  { apply mixed_keys_false in Hkeys as [H|H];
      exact (sort_by_sorted event_key _ items H). }
  split; [now apply sorted_reverse_result|].
  split; [apply sort_by_perm|]. split; [exact Hsorted|].
  split; [intros k; apply sort_by_stable|now apply Hfixed].
Qed.

Lemma events_sort_is_stable_witness :
  StronglySorted (key_ge event_key)
    [event_T3; sample_event (Some 1714561200000000%Z) "b";
     event_timed 1714561200000000%Z "a"; event_T1] /\
  sorted_reverse event_key
    [event_T3; sample_event (Some 1714561200000000%Z) "b";
     event_timed 1714561200000000%Z "a"; event_T1]
  = Ok [event_T3; sample_event (Some 1714561200000000%Z) "b";
        event_timed 1714561200000000%Z "a"; event_T1].
Proof.
  assert (H : StronglySorted (key_ge event_key)
                [event_T3; sample_event (Some 1714561200000000%Z) "b";
                 event_timed 1714561200000000%Z "a"; event_T1])
    by (repeat constructor).
  split; [exact H|].
  exact (proj2 (proj2 (events_sort_is_stable _)) H).
Defined.

(** ** get_pod_logs *)

(** [get_pod_logs] never raises: a line count that [int] refuses gives the
    error text of [int] without the cluster being asked, a failing read gives
    the error text of the read, and otherwise the logs are printed. *)
Theorem get_pod_logs_never_raises (k8s : Cluster) (pod_name namespace : string)
  (container : option string) (tail_lines : string) :
  (exists text,
      get_pod_logs k8s pod_name namespace container tail_lines = Ok text) /\
  (forall e,
      Py.int tail_lines = Raise e ->
      forall k8s',
        get_pod_logs k8s' pod_name namespace container tail_lines
        = Ok ("Error getting logs: " ++ Py.str_of_exn e)) /\
  (forall n e,
      Py.int tail_lines = Ok n ->
      read_namespaced_pod_log k8s pod_name namespace container n = Raise e ->
      get_pod_logs k8s pod_name namespace container tail_lines
      = Ok ("Error getting logs: " ++ Py.str_of_exn e)) /\
  (forall n logs,
      Py.int tail_lines = Ok n ->
      read_namespaced_pod_log k8s pod_name namespace container n = Ok logs ->
      exists head,
        get_pod_logs k8s pod_name namespace container tail_lines
        = Ok (head ++ "```" ++ nl ++ logs ++ nl ++ "```" ++ nl)).
Proof.
  split; [apply get_pod_logs_returns|]. split; [|split].
  - intros e He k8s'. unfold get_pod_logs. now rewrite He.
  - intros n e Hn He. unfold get_pod_logs. rewrite Hn. cbn [bind].
    now rewrite He.
  - intros n logs Hn Hlogs. unfold get_pod_logs. rewrite Hn. cbn [bind].
    rewrite Hlogs. eexists. rewrite <- !append_assoc. reflexivity.
Qed.

Lemma get_pod_logs_never_raises_witness :
  Py.int "many" = Raise (ValueError
    "invalid literal for int() with base 10: 'many'") /\
  get_pod_logs (unreachable not_found) "web-0" "default" None "many"
  = Ok "Error getting logs: invalid literal for int() with base 10: 'many'".
Proof.
  split; [reflexivity|].
  exact (proj1 (proj2 (get_pod_logs_never_raises events_cluster "web-0"
                         "default" None "many"))
           _ eq_refl (unreachable not_found)).
Defined.

(** ** get_kustomization *)

Lemma kustomization_condition_row_eq (c : Condition) :
  well_formed c = true ->
  forall output,
    kustomization_condition_row output c
    = Ok (output ++ kustomization_condition_line c).
Proof.
  intros _ output. reflexivity.
Qed.

Lemma debug_condition_row_eq (c : Condition) :
  well_formed c = true ->
  forall output,
    debug_condition_row output c = Ok (output ++ debug_condition_line c).
Proof.
  intros _ output. reflexivity.
Qed.

(** [get_kustomization] prints the detail head of the Kustomization (N/A
    for an absent path, interval or source, False for an absent suspend flag)
    and then one row for each condition, in the order of the status; with no
    status or no condition the table has no row. *)
Theorem get_kustomization_rows (k8s : Cluster) (name namespace : string)
  (k : Resource) :
  dyn_get k8s "kustomize.toolkit.fluxcd.io/v1" "Kustomization" name namespace
  = Ok k ->
  forallb well_formed (conditions_of k) = true ->
  get_kustomization k8s name namespace =
  Ok (kustomization_header name namespace k
      ++ concat_lines (map kustomization_condition_line (conditions_of k))) /\
  (conditions_of k = [] ->
   get_kustomization k8s name namespace
   = Ok (kustomization_header name namespace k)).
Proof.
  intros Hget Hwf.
  assert (H : get_kustomization k8s name namespace =
    Ok (kustomization_header name namespace k
        ++ concat_lines (map kustomization_condition_line (conditions_of k)))).
  { unfold get_kustomization. rewrite Hget.
    fold (conditions_of k).
    change (Py.get (conditions (Py.get (status k) no_status)) [])
      with (conditions_of k).
    rewrite (rows_appended kustomization_condition_row
               kustomization_condition_line (conditions_of k)).
    - reflexivity.
    - intros c Hin. apply kustomization_condition_row_eq.
      exact (forallb_In _ _ _ Hwf Hin). }
  split; [exact H|]. intros Hnil. rewrite H, Hnil. cbn.
  now rewrite append_nil_r.
Qed.

Lemma get_kustomization_rows_witness :
  dyn_get (failing_cluster "BuildFailed") "kustomize.toolkit.fluxcd.io/v1"
    "Kustomization" "apps" "flux-system"
  = Ok (failing_kustomization "BuildFailed") /\
  get_kustomization (failing_cluster "BuildFailed") "apps" "flux-system" =
  Ok (kustomization_header "apps" "flux-system"
        (failing_kustomization "BuildFailed")
      ++ "| Ready | False | BuildFailed | kustomize build failed |" ++ nl).
Proof.
  split; [reflexivity|].
  apply (get_kustomization_rows (failing_cluster "BuildFailed") "apps"
           "flux-system" (failing_kustomization "BuildFailed"));
    reflexivity.
Defined.

(** ** debug_reconciliation: the whole report *)

Lemma hints_of_nil (c : Condition) : hints_of c = [] <-> silent c = true.
Proof.
  unfold hints_of, silent. destruct (is_ready_false c); cbn [negb orb];
    [|split; reflexivity].
  cbn [hint_table filter fst].
  destruct (Py.contains "Source" _), (Py.contains "Validation" _),
    (Py.contains "Health" _); cbn; split; intros H;
    try discriminate H; reflexivity.
Qed.

Lemma hint_lines_nil (conds : list Condition) :
  hint_lines conds = [] <-> forallb silent conds = true.
Proof.
  unfold hint_lines. induction conds as [|c conds IH]; cbn [flat_map forallb].
  - split; reflexivity.
  - rewrite andb_true_iff, <- IH, <- hints_of_nil. split.
    + intros H. now apply app_eq_nil in H.
    + intros [-> ->]. reflexivity.
Qed.

Lemma append_same_l (a b : string) : a ++ b = a -> b = EmptyString.
Proof.
  induction a as [|x a IH]; cbn [append]; intros H; [exact H|].
  injection H as H. auto.
Qed.

(** For a resource that is found, [debug_reconciliation] prints the head,
    one row for each condition in order (the message cut to 50 characters
    with an ellipsis when it is longer, the time to 19), the heading of the
    recommendations and the hints; no hint follows the heading exactly when
    no condition is Ready/False with a reason that holds Source, Validation
    or Health, as for a Ready resource or a resource with no condition. *)
Theorem debug_reconciliation_report (k8s : Cluster)
  (resource_type name namespace api_version kind : string)
  (resource : Resource) :
  api_map (Py.lower resource_type) = Some (api_version, kind) ->
  dyn_get k8s api_version kind name namespace = Ok resource ->
  forallb well_formed (conditions_of resource) = true ->
  let conds := conditions_of resource in
  let table_ :=
    debug_header kind name namespace
    ++ concat_lines (map debug_condition_line conds)
    ++ nl ++ "### Recommendations" ++ nl ++ nl in
  debug_reconciliation k8s resource_type name namespace
  = Ok (table_ ++ concat_lines (hint_lines conds)) /\
  (debug_reconciliation k8s resource_type name namespace = Ok table_
   <-> forallb silent conds = true).
Proof.
  intros Hmap Hget Hwf conds table_.
  assert (H : debug_reconciliation k8s resource_type name namespace
              = Ok (table_ ++ concat_lines (hint_lines conds))).
  { unfold debug_reconciliation. rewrite Hmap, Hget. fold conds.
    rewrite (rows_appended debug_condition_row debug_condition_line conds).
    - cbn [bind]. rewrite (recommendations_eq conds Hwf).
      subst table_. f_equal.
      generalize (debug_header kind name namespace)
        (concat_lines (map debug_condition_line conds)).
      intros a b. now rewrite (append_assoc a b).
    - intros c Hin. apply debug_condition_row_eq.
      exact (forallb_In _ _ _ Hwf Hin). }
  split; [exact H|]. rewrite H, <- hint_lines_nil. split.
  - intros Heq.
    assert (Hsame : table_ ++ concat_lines (hint_lines conds) = table_)
      by congruence.
    apply append_same_l in Hsame.
    destruct (hint_lines conds) as [|h l] eqn:E; [reflexivity|].
    exfalso.
    assert (Hh : In h (hint_lines conds)) by (rewrite E; now left).
    unfold hint_lines in Hh. apply in_flat_map in Hh as [c [_ Hh]].
    apply hints_of_iff in Hh as [_ [sub [Hin _]]].
    cbn [concat_lines fold_right] in Hsame.
    cbn [hint_table In] in Hin.
    destruct Hin as [Hin|[Hin|[Hin|[]]]]; injection Hin as _ <-;
      discriminate Hsame.
  - intros ->. cbn. now rewrite append_nil_r.
Qed.

Lemma debug_reconciliation_report_witness :
  api_map (Py.lower "kustomization")
  = Some ("kustomize.toolkit.fluxcd.io/v1", "Kustomization") /\
  forallb silent (conditions_of (failing_kustomization "DependencyNotReady"))
  = true /\
  debug_reconciliation (failing_cluster "DependencyNotReady") "kustomization"
    "apps" "flux-system" =
  Ok (debug_header "Kustomization" "apps" "flux-system"
      ++ "| Ready | False | DependencyNotReady | 2024-05-01T10:00:00 | "
      ++ "kustomize build failed |" ++ nl
      ++ nl ++ "### Recommendations" ++ nl ++ nl).
Proof.
  split; [reflexivity|]. split; [reflexivity|].
  exact (proj2 (proj2 (debug_reconciliation_report
           (failing_cluster "DependencyNotReady") "kustomization" "apps"
           "flux-system" "kustomize.toolkit.fluxcd.io/v1" "Kustomization"
           (failing_kustomization "DependencyNotReady")
           eq_refl eq_refl eq_refl)) eq_refl).
Defined.

Lemma lower_lower (s : string) : Py.lower (Py.lower s) = Py.lower s.
Proof.
  induction s as [|c s IH]; [reflexivity|]. cbn [Py.lower].
  destruct (to_lower_facts c) as [_ [-> _]]. now rewrite IH.
Qed.

(** The resource type of [debug_reconciliation] is matched without regard
    to case; for a type that is none of the three in lower case the answer
    names the type as given and the cluster is not asked. *)
Theorem debug_resource_type (resource_type name namespace : string) :
  (in_list (Py.lower resource_type)
     ["kustomization"; "gitrepository"; "helmrelease"] = false ->
   forall k8s,
     debug_reconciliation k8s resource_type name namespace =
     Ok ("Unknown resource type: " ++ resource_type
         ++ ". Use: kustomization, gitrepository, helmrelease")) /\
  (in_list (Py.lower resource_type)
     ["kustomization"; "gitrepository"; "helmrelease"] = true ->
   forall k8s,
     debug_reconciliation k8s resource_type name namespace =
     debug_reconciliation k8s (Py.lower resource_type) name namespace).
Proof.
  unfold in_list. cbn [existsb]. split.
  - rewrite !orb_false_iff. intros [Hk [Hg [Hh _]]] k8s.
    unfold debug_reconciliation, api_map. now rewrite Hk, Hg, Hh.
  - intros Hin k8s. unfold debug_reconciliation. rewrite lower_lower.
    unfold api_map.
    destruct (Py.lower resource_type =? "kustomization"); [reflexivity|].
    destruct (Py.lower resource_type =? "gitrepository"); [reflexivity|].
    destruct (Py.lower resource_type =? "helmrelease"); [reflexivity|].
    discriminate.
Qed.

Lemma debug_resource_type_witness :
  in_list (Py.lower "HelmRelease")
    ["kustomization"; "gitrepository"; "helmrelease"] = true /\
  in_list (Py.lower "helmreleases")
    ["kustomization"; "gitrepository"; "helmrelease"] = false /\
  debug_reconciliation (unreachable not_found) "helmreleases" "a" "b" =
  Ok "Unknown resource type: helmreleases. Use: kustomization, gitrepository, helmrelease" /\
  debug_reconciliation (failing_cluster "BuildFailed") "HelmRelease" "a" "b" =
  debug_reconciliation (failing_cluster "BuildFailed") "helmrelease" "a" "b".
Proof.
  split; [reflexivity|]. split; [reflexivity|]. split.
  - exact (proj1 (debug_resource_type "helmreleases" "a" "b") eq_refl
             (unreachable not_found)).
  - exact (proj2 (debug_resource_type "HelmRelease" "a" "b") eq_refl
             (failing_cluster "BuildFailed")).
Defined.

(** ** list_contexts *)

Lemma context_row_eq (active_context ctx : KubeContext) (active_name : string) :
  kc_name active_context = Some active_name ->
  context_ok ctx = true ->
  context_row active_context ctx = Ok (Some (context_line active_name ctx)).
Proof.
  unfold context_ok, context_row, context_line. intros Ha.
  destruct (kc_name ctx) as [name|]; [|discriminate].
  destruct (kc_context ctx) as [body|]; [|discriminate]. intros _.
  rewrite Ha. reflexivity.
Qed.

(** [list_contexts] prints one row for each context of the kubeconfig, in
    order, and marks with an arrow exactly the rows whose name is the active
    context's; it has no sentence for an empty list, for which it prints the
    title and the header alone; a kubeconfig that cannot be loaded gives the
    error text. *)
Theorem list_contexts_rows (contexts : list KubeContext)
  (active_context : KubeContext) (active_name : string) :
  kc_name active_context = Some active_name ->
  forallb context_ok contexts = true ->
  list_contexts (Ok (contexts, active_context)) =
  Ok (table "## Kubernetes Contexts" contexts_header
        (map (context_line active_name) contexts)) /\
  (forall ctx,
      prefix "| →" (context_line active_name ctx)
      = (Py.get (kc_name ctx) EmptyString =? active_name)) /\
  (forall any_context,
      list_contexts (Ok ([], any_context)) =
      Ok ("## Kubernetes Contexts" ++ nl ++ nl ++ contexts_header ++ nl)) /\
  (forall e,
      list_contexts (Raise e)
      = Ok ("Error loading kubeconfig: " ++ Py.str_of_exn e)).
Proof.
  intros Ha Hok. split; [|split; [|split]].
  - unfold list_contexts.
    rewrite (listing_rows _ (fun _ => true) (context_line active_name)).
    + cbn [bind]. now rewrite filter_all.
    + intros ctx Hin. apply context_row_eq; [assumption|].
      exact (forallb_In _ _ _ Hok Hin).
  - intros ctx. unfold context_line.
    now destruct (Py.get (kc_name ctx) EmptyString =? active_name).
  - reflexivity.
  - reflexivity.
Qed.

Lemma list_contexts_rows_witness :
  kc_name (sample_context "prod") = Some "prod" /\
  list_contexts (Ok ([sample_context "dev"; sample_context "prod"],
                     sample_context "prod")) =
  Ok (table "## Kubernetes Contexts" contexts_header
        ["|  | dev | dev-cluster | admin |";
         "| → | prod | prod-cluster | admin |"]).
Proof.
  split; [reflexivity|].
  apply (list_contexts_rows [sample_context "dev"; sample_context "prod"]
           (sample_context "prod") "prod"); reflexivity.
Defined.

Lemma constraint_kind_of_words_witness :
  forallb all_lower ["required"; "labels"] = true /\
  constraint_kind_of "required-labels" = "RequiredLabels".
Proof.
  split; [reflexivity|].
  exact (constraint_kind_of_words ["required"; "labels"] eq_refl).
Defined.
